(* Shallow embedding of the process table, child tracker and wait logic of
   flinux's src/syscall/process.c, with proofs of its documented behaviour.

   The model is sequential: every operation that the C code runs under
   [shared_mutex] is one atomic Rocq function, so [process_lock_shared] and
   [process_unlock_shared] have no counterpart. *)

From Stdlib Require Import ZArith List String Bool Lia Permutation.
Import ListNotations.
Open Scope Z_scope.

(* ------------------------------------------------------------------------- *)
(** * Constants *)

Definition MAX_PROCESS_COUNT : Z := 4096.
Definition MAX_CHILD_COUNT : Z := 1024.

Definition PROCESS_NOTEXIST : Z := 0.
Definition PROCESS_RUNNING : Z := 1.

(** Linux ABI values of common/errno.h and common/wait.h (the code only uses
    them symbolically). *)
Definition ESRCH : Z := 3.
Definition EINTR : Z := 4.
Definition ECHILD : Z := 10.
Definition EINVAL : Z := 22.

Definition WNOHANG : Z := 1.
Definition WUNTRACED : Z := 2.
Definition WCONTINUED : Z := 8.

Definition DT_DIR : Z := 4.

(* ------------------------------------------------------------------------- *)
(** * Shared process table *)

(** [struct process]; handles ([HANDLE sigwrite]) are opaque numbers, NULL
    being 0. *)
Record process := mkProcess {
  status : Z;
  win_pid : Z;
  pgid : Z;
  ppid : Z;
  sid : Z;
  sigwrite : Z
}.

(** Zero-initialised shared memory. *)
Definition process_zero : process := mkProcess 0 0 0 0 0 0.

(** [struct process_shared_data]: the array is a total map from slot index to
    record; the code only indexes it in [0, MAX_PROCESS_COUNT). *)
Record process_shared_data := mkShared {
  last_allocated_process : Z;
  processes : Z -> process
}.

Definition shared_zero : process_shared_data := mkShared 0 (fun _ => process_zero).

(** [processes[k] = p] *)
Definition set_process (procs : Z -> process) (k : Z) (p : process) : Z -> process :=
  fun q => if Z.eqb q k then p else procs q.

Definition set_slot (sh : process_shared_data) (k : Z) (p : process) : process_shared_data :=
  mkShared (last_allocated_process sh) (set_process (processes sh) k p).

(* ------------------------------------------------------------------------- *)
(** * process_alloc *)

(** The slot examined at iteration [i] of the loop of [process_alloc]. *)
Definition alloc_candidate (last i : Z) : Z :=
  let cur := last + i in
  if cur >=? MAX_PROCESS_COUNT then cur - (MAX_PROCESS_COUNT - 1) else cur.

(** [for (int i = i0; i < MAX_PROCESS_COUNT; i++) ...]; [fuel] bounds the
    iterations and is always large enough for the loop to end on its test. *)
Fixpoint alloc_loop (fuel : nat) (sh : process_shared_data) (i : Z) : option Z :=
  match fuel with
  | O => None
  | S fuel' =>
      if i <? MAX_PROCESS_COUNT then
        let cur := alloc_candidate (last_allocated_process sh) i in
        if Z.eqb (status (processes sh cur)) PROCESS_NOTEXIST then Some cur
        else alloc_loop fuel' sh (i + 1)
      else None
  end.

(** [process_alloc]: [None] is the "Process table full" path, which ends in
    [__debugbreak()]. *)
Definition process_alloc (sh : process_shared_data) : option (Z * process_shared_data) :=
  match alloc_loop (Z.to_nat (MAX_PROCESS_COUNT - 1)) sh 1 with
  | Some cur => Some (cur, mkShared cur (processes sh))
  | None => None
  end.

(** Position of slot [s] in the round-robin order "lastAllocated + 1, ...,
    MAX_PROCESS_COUNT - 1, 1, ..., lastAllocated" described by the spec. *)
Definition scan_rank (last s : Z) : Z :=
  if last <? s then s - last else s + (MAX_PROCESS_COUNT - 1 - last).

(* ------------------------------------------------------------------------- *)
(** * Per-process local state *)

Module ChildProcess.
(** [struct child_process]; its [list] node is represented by the index of
    the record in [process->child], which is what the lists below hold. *)
Record child_process := mkChild {
  pid : Z;
  hProcess : Z;
  terminated : bool
}.
End ChildProcess.

Definition child_zero : ChildProcess.child_process := ChildProcess.mkChild 0 0 false.

(** [struct process_data]; [stack_base] and [shared_mutex] play no part in
    the properties below and are left out. *)
Record process_data := mkData {
  pid : Z;
  child_count : Z;
  child_list : list Z;
  child_freelist : list Z;
  child : Z -> ChildProcess.child_process
}.

Definition set_child (ch : Z -> ChildProcess.child_process) (k : Z)
  (c : ChildProcess.child_process) : Z -> ChildProcess.child_process :=
  fun q => if Z.eqb q k then c else ch q.

(** Modelled from the spec: the singly linked lists of lib/slist.h
    ([slist_add], [slist_remove], [slist_next], [slist_iterate_safe]) are not
    among the sources. A list is the sequence of its nodes in iteration order;
    following the spec ("iterates active children in insertion order"),
    [slist_add] makes the added node the last one visited. *)
Definition slist_add (l : list Z) (x : Z) : list Z := l ++ [x].

(** [slist_iterate_safe] up to the first node satisfying [p], split as
    (nodes before, node, nodes after); [slist_remove(prev, cur)] on the
    result leaves [before ++ after]. *)
Fixpoint slist_find (p : Z -> bool) (l : list Z) : option (list Z * Z * list Z) :=
  match l with
  | [] => None
  | x :: l' =>
      if p x then Some ([], x, l')
      else match slist_find p l' with
           | Some (pre, y, post) => Some (x :: pre, y, post)
           | None => None
           end
  end.

(** [process_init_private], local part: every child record goes to the free
    list, in index order. *)
Definition process_init_private : process_data :=
  mkData 0 0 []
    (fold_left slist_add (map Z.of_nat (seq 0 (Z.to_nat MAX_CHILD_COUNT))) [])
    (fun _ => child_zero).

Definition set_pid (ld : process_data) (p : Z) : process_data :=
  mkData p (child_count ld) (child_list ld) (child_freelist ld) (child ld).

(* ------------------------------------------------------------------------- *)
(** * process_init *)

(** [process_init] against the shared table [sh]; [cur_win_pid] is
    [GetCurrentProcessId()] and [sigwrite_h] is
    [signal_get_process_sigwrite()]. *)
Definition process_init (sh : process_shared_data) (cur_win_pid sigwrite_h : Z)
  : option (process_shared_data * process_data) :=
  let ld := process_init_private in
  match process_alloc sh with
  | None => None
  | Some (pid0, sh1) =>
      let r :=
        if Z.eqb pid0 1 then
          (* INIT process does not exist, create it now *)
          let sh2 := set_slot sh1 1
                       {| status := PROCESS_RUNNING; win_pid := 0; ppid := 0;
                          pgid := 1; sid := 1; sigwrite := 0 |} in
          process_alloc sh2
        else Some (pid0, sh1) in
      match r with
      | None => None
      | Some (p, sh3) =>
          Some (set_slot sh3 p
                  {| status := PROCESS_RUNNING; win_pid := cur_win_pid; ppid := 1;
                     pgid := p; sid := p; sigwrite := sigwrite_h |},
                set_pid ld p)
      end
  end.

(* ------------------------------------------------------------------------- *)
(** * process_add_child *)

(** [process_add_child(win_pid, handle)]; [None] is the [__debugbreak()] of
    an exhausted free list or a full process table. The fields of the new slot
    are written one after the other, as in the C code. *)
Definition process_add_child (sh : process_shared_data) (ld : process_data)
  (child_win_pid handle : Z) : option (Z * process_shared_data * process_data) :=
  match child_freelist ld with
  | [] => None
  | c :: free' =>
      match process_alloc sh with
      | None => None
      | Some (p, sh1) =>
          let old := processes sh1 p in
          let sh_a := set_slot sh1 p
                        (mkProcess PROCESS_RUNNING child_win_pid (pgid old) (ppid old)
                           (sid old) (sigwrite old)) in
          let pg := pgid (processes sh_a (pid ld)) in
          let cur := processes sh_a p in
          let sh_b := set_slot sh_a p
                        (mkProcess (status cur) (win_pid cur) pg (pid ld) (sid cur)
                           (sigwrite cur)) in
          let sd := sid (processes sh_b (pid ld)) in
          let cur' := processes sh_b p in
          let sh_c := set_slot sh_b p
                        (mkProcess (status cur') (win_pid cur') (pgid cur') (ppid cur')
                           sd 0) in
          let ld' := mkData (pid ld) (child_count ld + 1)
                       (slist_add (child_list ld) c) free'
                       (set_child (child ld) c (ChildProcess.mkChild p handle false)) in
          Some (p, sh_c, ld')
      end
  end.

(* ------------------------------------------------------------------------- *)
(** * process_wait *)

(** What [signal_wait] (syscall/sig.c) reports; [process_wait] only tells
    [WAIT_INTERRUPTED] from the other results. *)
Inductive wait_outcome := WAIT_OBJECT_0 | WAIT_INTERRUPTED.

(** The environment of one [process_wait] call: the result of the (at most
    one) [signal_wait] it makes, and [GetExitCodeProcess] on a handle. *)
Record wait_env := mkEnv {
  signal_wait_result : wait_outcome;
  exit_code_of : Z -> Z
}.

(** Everything [process_wait] may read or write: the shared table, the
    caller's [process_data], the count of the semaphore returned by
    [signal_get_process_wait_semaphore()], and the handles closed so far. *)
Record world := mkWorld {
  shared : process_shared_data;
  local : process_data;
  wait_semaphore : Z;
  closed_handles : list Z
}.

(** [WaitForSingleObject] on the wait semaphore, or a [signal_wait] on it that
    was not interrupted: one unit taken. *)
Definition sem_dec (w : world) : world :=
  mkWorld (shared w) (local w) (wait_semaphore w - 1) (closed_handles w).

(** [slist_remove(prev, cur); slist_add(&child_freelist, cur);
    child_count--] for the node [c] found between [pre] and [post]. *)
Definition reap_record (w : world) (pre : list Z) (c : Z) (post : list Z) : world :=
  let ld := local w in
  mkWorld (shared w)
    (mkData (pid ld) (child_count ld - 1) (pre ++ post)
       (slist_add (child_freelist ld) c) (child ld))
    (wait_semaphore w) (closed_handles w).

(** Modelled from the spec: [W_EXITCODE] of common/wait.h is not among the
    sources; the spec asks for the documented POSIX-style encoding of a normal
    exit, i.e. the Linux macro [((ret) << 8 | (sig))], here on the 32-bit
    unsigned [DWORD exitCode]. *)
Definition W_EXITCODE (ret sig : Z) : Z :=
  Z.land (Z.lor (Z.shiftl ret 8) sig) (2 ^ 32 - 1).

(** Conversion of a 32-bit unsigned value to [int]. *)
Definition to_int32 (u : Z) : Z :=
  let m := u mod 2 ^ 32 in if m >=? 2 ^ 31 then m - 2 ^ 32 else m.

(** Result of a [process_wait] call: the return value, the world after the
    call, and what was stored through [status] ([None] when nothing was). *)
Definition wait_result : Type := (Z * world * option Z)%type.

(** The common tail of [process_wait] for the reaped record [c]. *)
Definition wait_finalize (env : wait_env) (w : world) (c : Z) (status_nonnull : bool)
  : wait_result :=
  let p := child (local w) c in
  let exitCode := exit_code_of env (ChildProcess.hProcess p) in
  let w' := mkWorld (shared w) (local w) (wait_semaphore w)
              (closed_handles w ++ [ChildProcess.hProcess p]) in
  (ChildProcess.pid p, w',
   if status_nonnull then Some (to_int32 (W_EXITCODE exitCode 0)) else None).

Definition has_WNOHANG (options : Z) : bool := negb (Z.land options WNOHANG =? 0).

(** [process_wait(pid, status, options, rusage)]; [status_nonnull] and
    [rusage_nonnull] say whether those pointers are non-NULL. The
    [WUNTRACED], [WCONTINUED] and [rusage] tests only log. *)
Definition process_wait (env : wait_env) (w : world) (wpid : Z) (status_nonnull : bool)
  (options : Z) (rusage_nonnull : bool) : wait_result :=
  let ld := local w in
  if 0 <? wpid then
    match slist_find (fun c => ChildProcess.pid (child ld c) =? wpid) (child_list ld) with
    | None => (- ECHILD, w, None)
    | Some (pre, c, post) =>
        let proc := child ld c in
        if has_WNOHANG options then
          if negb (ChildProcess.terminated proc) then (- ECHILD, w, None)
          else wait_finalize env (reap_record (sem_dec w) pre c post) c status_nonnull
        else
          match signal_wait_result env with
          | WAIT_INTERRUPTED => (- EINTR, w, None)
          | WAIT_OBJECT_0 =>
              wait_finalize env (reap_record (sem_dec w) pre c post) c status_nonnull
          end
    end
  else if wpid =? -1 then
    if child_count ld =? 0 then (- ECHILD, w, None)
    else
      let waited :=
        if has_WNOHANG options then Some w
        else match signal_wait_result env with
             | WAIT_INTERRUPTED => None
             | WAIT_OBJECT_0 => Some (sem_dec w)
             end in
      match waited with
      | None => (- EINTR, w, None)
      | Some w1 =>
          match slist_find (fun c => ChildProcess.terminated (child (local w1) c))
                  (child_list (local w1)) with
          | None => (- ECHILD, w1, None)
          | Some (pre, c, post) =>
              let w2 := if has_WNOHANG options then sem_dec w1 else w1 in
              wait_finalize env (reap_record w2 pre c post) c status_nonnull
          end
      end
  else (- EINVAL, w, None).

(* ------------------------------------------------------------------------- *)
(** * Identity queries *)

(** [process_get_ppid(pid)] *)
Definition process_get_ppid (sh : process_shared_data) (ld : process_data) (qpid : Z) : Z :=
  ppid (processes sh (pid ld)).

(* ------------------------------------------------------------------------- *)
(** * procfs_pid_iter *)

(** What [procfs_pid_iter] reports: [VIRTUALFS_ITER_END], or the entry it
    wrote through [type] and [name] together with the returned cursor. *)
Inductive iter_result :=
| VIRTUALFS_ITER_END
| IterEntry (type : Z) (name : string) (next_tag : Z).

(** [while (iter_tag < MAX_PROCESS_COUNT && processes[iter_tag].status ==
    PROCESS_NOTEXIST) iter_tag++;] *)
Fixpoint skip_notexist (fuel : nat) (procs : Z -> process) (t : Z) : Z :=
  match fuel with
  | O => t
  | S fuel' =>
      if (t <? MAX_PROCESS_COUNT) && (status (procs t) =? PROCESS_NOTEXIST)
      then skip_notexist fuel' procs (t + 1)
      else t
  end.

(** [procfs_pid_iter(dir_tag, iter_tag, type, name, namelen)]; [ksprintf_d]
    stands for [ksprintf(name, "%d", .)] of str.c, which is not among the
    sources and is kept abstract. The fuel [MAX_PROCESS_COUNT - iter_tag]
    is exactly the number of increments the loop can make. *)
Definition procfs_pid_iter (ksprintf_d : Z -> string) (sh : process_shared_data)
  (iter_tag : Z) : iter_result :=
  let t := skip_notexist (Z.to_nat (MAX_PROCESS_COUNT - iter_tag)) (processes sh) iter_tag in
  if t =? MAX_PROCESS_COUNT then VIRTUALFS_ITER_END
  else IterEntry DT_DIR (ksprintf_d t) (t + 1).

(** A decimal printer for non-negative numbers, used to run the examples. *)
Fixpoint decimal_digits (fuel : nat) (n : Z) (acc : string) : string :=
  match fuel with
  | O => acc
  | S fuel' =>
      let d := String (Ascii.ascii_of_nat (48 + Z.to_nat (n mod 10))) acc in
      if n <? 10 then d else decimal_digits fuel' (n / 10) d
  end.

Definition decimal (n : Z) : string := decimal_digits 12 n EmptyString.

(* ------------------------------------------------------------------------- *)
(** * Other identity queries *)

(** [process_pid_exist(pid)] *)
Definition process_pid_exist (sh : process_shared_data) (qpid : Z) : bool :=
  if (qpid <? 0) || (qpid >=? MAX_PROCESS_COUNT) then false
  else negb (status (processes sh qpid) =? PROCESS_NOTEXIST).

(** [process_get_pgid(pid)]; the lock taken for another process's slot has
    no counterpart in the sequential model. *)
Definition process_get_pgid (sh : process_shared_data) (ld : process_data) (qpid : Z) : Z :=
  let q := if qpid =? 0 then pid ld else qpid in
  if status (processes sh q) =? PROCESS_NOTEXIST then - ESRCH
  else pgid (processes sh q).

(** [sys_getpgrp()], which is [sys_getpgid(process->pid)]. *)
Definition sys_getpgrp (sh : process_shared_data) (ld : process_data) : Z :=
  process_get_pgid sh ld (pid ld).

(** [process_get_sid()] *)
Definition process_get_sid (sh : process_shared_data) (ld : process_data) : Z :=
  sid (processes sh (pid ld)).

(** [process_afterfork(stack_base, pid)] in the forked child: fresh local
    state with the given pid, and the child's [sigwrite] stored in its slot. *)
Definition process_afterfork (sh : process_shared_data) (p sigwrite_h : Z)
  : process_shared_data * process_data :=
  let old := processes sh p in
  (set_slot sh p (mkProcess (status old) (win_pid old) (pgid old) (ppid old) (sid old)
                    sigwrite_h),
   set_pid process_init_private p).

(* ------------------------------------------------------------------------- *)
(** * Invariant of the child tracker *)

(** What [process_init], [process_add_child] and [process_wait] keep of the
    caller's view: the cursor is a slot index, the caller's slot is in use,
    every record of the pool is on exactly one of the two lists,
    [child_count] is the length of the active list, and each active record
    holds a distinct pid whose slot is in use. *)
Definition child_inv (sh : process_shared_data) (ld : process_data) : Prop :=
  0 <= last_allocated_process sh < MAX_PROCESS_COUNT /\
  status (processes sh (pid ld)) <> PROCESS_NOTEXIST /\
  NoDup (child_list ld ++ child_freelist ld) /\
  (forall c, In c (child_list ld ++ child_freelist ld) -> 0 <= c < MAX_CHILD_COUNT) /\
  (List.length (child_list ld) + List.length (child_freelist ld))%nat = Z.to_nat MAX_CHILD_COUNT /\
  child_count ld = Z.of_nat (List.length (child_list ld)) /\
  (forall c, In c (child_list ld) ->
     1 <= ChildProcess.pid (child ld c) < MAX_PROCESS_COUNT /\
     status (processes sh (ChildProcess.pid (child ld c))) <> PROCESS_NOTEXIST) /\
  (forall c1 c2, In c1 (child_list ld) -> In c2 (child_list ld) ->
     ChildProcess.pid (child ld c1) = ChildProcess.pid (child ld c2) -> c1 = c2).

(** [n] successive calls [waitpid(-1, NULL, WNOHANG)]: their return values
    and the final world. *)
Fixpoint wait_any_nohang_repeat (env : wait_env) (w : world) (n : nat) : list Z * world :=
  match n with
  | O => ([], w)
  | S n' =>
      let '(r, w1, _) := process_wait env w (-1) false WNOHANG false in
      let '(rs, w2) := wait_any_nohang_repeat env w1 n' in
      (r :: rs, w2)
  end.

(** The slots [t], [t + 1], ..., [t + n - 1]. *)
Fixpoint slots_from (n : nat) (t : Z) : list Z :=
  match n with
  | O => []
  | S n' => t :: slots_from n' (t + 1)
  end.

(** The listing produced by calling [procfs_pid_iter] from cursor [tag]
    until it reports [VIRTUALFS_ITER_END], each call resuming at the cursor
    the previous one returned (at most [fuel] calls). *)
Fixpoint procfs_pid_iter_all (ksprintf_d : Z -> string) (sh : process_shared_data)
  (fuel : nat) (tag : Z) : list string :=
  match fuel with
  | O => []
  | S fuel' =>
      match procfs_pid_iter ksprintf_d sh tag with
      | VIRTUALFS_ITER_END => []
      | IterEntry _ name next_tag => name :: procfs_pid_iter_all ksprintf_d sh fuel' next_tag
      end
  end.

(* ------------------------------------------------------------------------- *)
(** * sched_getaffinity *)

Definition EFAULT : Z := 14.

(** [sys_sched_getaffinity(pid, cpusetsize, mask)]. [mask] is the user
    memory seen from the [mask] pointer (byte offset to byte), and
    [mm_check_write_mask n] is [mm_check_write(mask, n)]. [size_t_bits] is the
    width of [size_t] and [uintptr_size] is [sizeof(uintptr_t)] (both depend
    on the build); [int bytes = (cpusetsize + 7) & ~7] is computed in
    [size_t] and converted to [int]. *)
Definition sys_sched_getaffinity (mm_check_write_mask : Z -> bool) (size_t_bits uintptr_size : Z)
  (qpid cpusetsize : Z) (mask : Z -> Z) : Z * (Z -> Z) :=
  if negb (qpid =? 0) then (- ESRCH, mask)
  else
    let bytes := to_int32 (Z.land (Z.land (cpusetsize + 7) (Z.lnot 7)) (Z.ones size_t_bits)) in
    if negb (mm_check_write_mask bytes) then (- EFAULT, mask)
    else
      (* for (int i = 0; i < bytes; i++) mask[i] = 0; *)
      let mask1 := fun i => if (0 <=? i) && (i <? bytes) then 0 else mask i in
      (* mask[0] = 1; *)
      let mask2 := fun i => if i =? 0 then 1 else mask1 i in
      (uintptr_size, mask2).

(* ------------------------------------------------------------------------- *)
(** * uname and oldolduname *)

(** The contents of a [struct utsname]: each field as the C string it
    holds. *)
Record utsname := mkUtsname {
  sysname : string;
  nodename : string;
  release : string;
  version : string;
  machine : string;
  domainname : string
}.

(** The strings [sys_uname] copies into [struct utsname]; [machine] depends
    on [_WIN64]. *)
Definition sys_uname_fields (win64 : bool) : utsname :=
  mkUtsname "Linux" "ForeignLinux" "3.15.0" "3.15.0"
    (if win64 then "x86_64" else "i686") "GNU/Linux".

(** [sys_uname(buf)]: [buf_writable] is [mm_check_write(buf, sizeof(struct
    utsname))] and [buf] the contents before the call; on failure
    [-EFAULT] and the buffer is left as it was. *)
Definition sys_uname (buf_writable win64 : bool) (buf : utsname) : Z * utsname :=
  if negb buf_writable then (- EFAULT, buf)
  else (0, sys_uname_fields win64).

(** Linux ABI value of [__OLD_UTS_LEN]. *)
Definition OLD_UTS_LEN : nat := 8.

(** C's [strncpy(dst, src, n)]: the bytes of [src] up to its first NUL (or
    its end), at most [n] of them, padded with NUL bytes up to [n]; no NUL is
    added when [src] has [n] bytes or more before a NUL. *)
Fixpoint strncpy (src : string) (n : nat) : list Ascii.ascii :=
  match n with
  | O => []
  | S n' =>
      match src with
      | EmptyString => Ascii.zero :: strncpy EmptyString n'
      | String ch rest =>
          if Ascii.eqb ch Ascii.zero then Ascii.zero :: strncpy EmptyString n'
          else ch :: strncpy rest n'
      end
  end.

(** [struct oldold_utsname] as filled by [sys_oldolduname]: five fields of
    [__OLD_UTS_LEN + 1] bytes. *)
Record oldold_utsname := mkOldold {
  old_sysname : list Ascii.ascii;
  old_nodename : list Ascii.ascii;
  old_release : list Ascii.ascii;
  old_version : list Ascii.ascii;
  old_machine : list Ascii.ascii
}.

(** [sys_oldolduname(buf)]: [None] for the [-EFAULT] of a buffer that fails
    [mm_check_write], otherwise the return value 0 and the bytes written.
    [newbuf_writable] is the [mm_check_write] that [sys_uname(&newbuf)] makes
    on the local [newbuf], and [newbuf] its uninitialised contents; the
    result of [sys_uname] is not looked at. *)
Definition sys_oldolduname (win64 buf_writable newbuf_writable : bool) (newbuf : utsname)
  : Z * option oldold_utsname :=
  if negb buf_writable then (- EFAULT, None)
  else
    let '(_, u) := sys_uname newbuf_writable win64 newbuf in
    let n := S OLD_UTS_LEN in
    (0, Some (mkOldold (strncpy (sysname u) n) (strncpy (nodename u) n)
                (strncpy (release u) n) (strncpy (version u) n) (strncpy (machine u) n))).

Definition wait_demo_env : wait_env := mkEnv WAIT_INTERRUPTED (fun _ => 3).

(** One tracked child (record 0, pid 5, native handle 555), terminated. *)
Definition wait_demo_world : world :=
  mkWorld shared_zero
    (mkData 2 1 [0] [1; 2]
       (set_child (fun _ => child_zero) 0 (ChildProcess.mkChild 5 555 true)))
    1 [].

(** The state of a first process after [process_init] on an empty table
    (native pid 77, signal pipe 9). *)
Definition init_demo : process_shared_data * process_data :=
  match process_init shared_zero 77 9 with
  | Some r => r
  | None => (shared_zero, process_init_private)
  end.

(** [init_demo] after [process_add_child(88, 5)]: one tracked child, not
    terminated. *)
Definition child_demo : process_shared_data * process_data :=
  match process_add_child (fst init_demo) (snd init_demo) 88 5 with
  | Some (_, sh, ld) => (sh, ld)
  | None => init_demo
  end.

Definition child_demo_world : world := mkWorld (fst child_demo) (snd child_demo) 1 [].

Definition wait_ok_env : wait_env := mkEnv WAIT_OBJECT_0 (fun _ => 3).

(** One more [process_add_child(win_pid, handle)] on a demo state. *)
Definition add_child_demo (s : process_shared_data * process_data) (child_win_pid handle : Z)
  : process_shared_data * process_data :=
  match process_add_child (fst s) (snd s) child_win_pid handle with
  | Some (_, sh, ld) => (sh, ld)
  | None => s
  end.

(** [child_demo] after two more children are registered. *)
Definition two_children_demo : process_shared_data * process_data :=
  add_child_demo child_demo 89 6.

(** The signal handling side (outside process.c) marking record [c] as
    terminated. *)
Definition mark_terminated (ld : process_data) (c : Z) : process_data :=
  mkData (pid ld) (child_count ld) (child_list ld) (child_freelist ld)
    (set_child (child ld) c
       (ChildProcess.mkChild (ChildProcess.pid (child ld c))
          (ChildProcess.hProcess (child ld c)) true)).

(** Three children registered in the order of records 0, 1, 2; the second
    and the third have terminated, the first has not. *)
Definition three_children_world : world :=
  let s := add_child_demo two_children_demo 90 7 in
  mkWorld (fst s) (mark_terminated (mark_terminated (snd s) 1) 2) 3 [].

(** A table where the allocation cursor sits at 4094, slot 4095 is taken,
    and the scan has to wrap around to slot 1. *)
Definition alloc_demo_table : process_shared_data :=
  mkShared 4094 (set_process (fun _ => process_zero) 4095
                   (mkProcess PROCESS_RUNNING 7 4095 1 4095 0)).

(* ========================================================================= *)
(** * Proofs *)

Ltac Zcases :=
  repeat match goal with
  | |- context [?a <? ?b] => destruct (Z.ltb_spec a b)
  | |- context [?a >=? ?b] => destruct (Z.geb_spec a b)
  | |- context [?a =? ?b] => destruct (Z.eqb_spec a b)
  end.

(** ** The candidates of [process_alloc] *)

Lemma alloc_candidate_range (last i : Z) :
  0 <= last < MAX_PROCESS_COUNT -> 1 <= i < MAX_PROCESS_COUNT ->
  1 <= alloc_candidate last i < MAX_PROCESS_COUNT.
Proof. unfold alloc_candidate, MAX_PROCESS_COUNT; intros; Zcases; lia. Qed.

Lemma scan_rank_candidate (last i : Z) :
  0 <= last < MAX_PROCESS_COUNT -> 1 <= i < MAX_PROCESS_COUNT ->
  scan_rank last (alloc_candidate last i) = i.
Proof. unfold scan_rank, alloc_candidate, MAX_PROCESS_COUNT; intros; Zcases; lia. Qed.

Lemma candidate_scan_rank (last s : Z) :
  0 <= last < MAX_PROCESS_COUNT -> 1 <= s < MAX_PROCESS_COUNT ->
  1 <= scan_rank last s < MAX_PROCESS_COUNT /\
  alloc_candidate last (scan_rank last s) = s.
Proof. unfold scan_rank, alloc_candidate, MAX_PROCESS_COUNT; intros; Zcases; lia. Qed.

Lemma alloc_loop_some (fuel : nat) (sh : process_shared_data) (i r : Z) :
  alloc_loop fuel sh i = Some r ->
  exists j, i <= j < MAX_PROCESS_COUNT /\
    r = alloc_candidate (last_allocated_process sh) j /\
    status (processes sh r) = PROCESS_NOTEXIST /\
    (forall k, i <= k < j ->
       status (processes sh (alloc_candidate (last_allocated_process sh) k))
       <> PROCESS_NOTEXIST).
Proof.
  revert i; induction fuel as [|fuel IH]; intros i H; simpl in H; [discriminate|].
  destruct (Z.ltb_spec i MAX_PROCESS_COUNT); [|discriminate].
  destruct (Z.eqb_spec (status (processes sh (alloc_candidate (last_allocated_process sh) i)))
              PROCESS_NOTEXIST) as [E|E].
  - injection H as <-. exists i. repeat split; auto; lia.
  - destruct (IH _ H) as (j & Hj & Hr & Hs & Hbefore).
    exists j. repeat split; auto; try lia.
    intros k Hk. destruct (Z.eq_dec k i) as [->|]; [exact E|]. apply Hbefore; lia.
Qed.

Lemma alloc_loop_none (fuel : nat) (sh : process_shared_data) (i : Z) :
  alloc_loop fuel sh i = None ->
  forall k, i <= k < MAX_PROCESS_COUNT -> k < i + Z.of_nat fuel ->
    status (processes sh (alloc_candidate (last_allocated_process sh) k))
    <> PROCESS_NOTEXIST.
Proof.
  revert i; induction fuel as [|fuel IH]; intros i H k Hk Hf; simpl in *; [lia|].
  destruct (Z.ltb_spec i MAX_PROCESS_COUNT); [|lia].
  destruct (Z.eqb_spec (status (processes sh (alloc_candidate (last_allocated_process sh) i)))
              PROCESS_NOTEXIST) as [E|E]; [discriminate|].
  destruct (Z.eq_dec k i) as [->|]; [exact E|]. apply (IH (i + 1)); auto; lia.
Qed.

(** The allocation cursor stays a slot index. *)
Lemma process_alloc_last_range (sh sh' : process_shared_data) (r : Z) :
  0 <= last_allocated_process sh < MAX_PROCESS_COUNT ->
  process_alloc sh = Some (r, sh') ->
  last_allocated_process sh' = r /\ 1 <= r < MAX_PROCESS_COUNT.
Proof.
  unfold process_alloc; intros Hl H.
  destruct (alloc_loop _ sh 1) as [c|] eqn:E; [|discriminate].
  injection H as <- <-.
  destruct (alloc_loop_some _ _ _ _ E) as (j & Hj & -> & _).
  split; [reflexivity|]. apply alloc_candidate_range; lia.
Qed.

(** C1. When some slot in [1, MAX_PROCESS_COUNT) is free, [process_alloc]
    (with the cursor [lastAllocated] a slot index, as it always is) only
    examines slots in [1, MAX_PROCESS_COUNT), returns the free slot that
    comes first in the order lastAllocated + 1, ..., MAX_PROCESS_COUNT - 1,
    1, ..., lastAllocated, stores it as the new cursor, and leaves the slots
    untouched; the returned pid is not 0 and is not the pid of any slot that
    was in use. *)
Theorem process_alloc_first_free (sh : process_shared_data) :
  0 <= last_allocated_process sh < MAX_PROCESS_COUNT ->
  (exists s, 1 <= s < MAX_PROCESS_COUNT /\ status (processes sh s) = PROCESS_NOTEXIST) ->
  (forall i, 1 <= i < MAX_PROCESS_COUNT ->
     1 <= alloc_candidate (last_allocated_process sh) i < MAX_PROCESS_COUNT) /\
  exists r,
    process_alloc sh = Some (r, mkShared r (processes sh)) /\
    1 <= r < MAX_PROCESS_COUNT /\
    status (processes sh r) = PROCESS_NOTEXIST /\
    (forall s, 1 <= s < MAX_PROCESS_COUNT -> status (processes sh s) = PROCESS_NOTEXIST ->
       scan_rank (last_allocated_process sh) r <= scan_rank (last_allocated_process sh) s) /\
    (forall q, status (processes sh q) <> PROCESS_NOTEXIST -> q <> r).
Proof.
  intros Hl (s & Hs & Hfree).
  split; [intros; apply alloc_candidate_range; lia|].
  set (last := last_allocated_process sh) in *.
  unfold process_alloc.
  destruct (alloc_loop _ sh 1) as [r|] eqn:E.
  - destruct (alloc_loop_some _ _ _ _ E) as (j & Hj & Hr & Hst & Hbefore).
    fold last in Hr, Hbefore.
    exists r. split; [reflexivity|].
    assert (Hrange : 1 <= r < MAX_PROCESS_COUNT) by (subst r; apply alloc_candidate_range; lia).
    repeat split; try lia; auto.
    + intros s' Hs' Hfree'.
      destruct (candidate_scan_rank last s') as [Hk Hc]; [lia|lia|].
      subst r. rewrite scan_rank_candidate by lia.
      destruct (Z.lt_ge_cases (scan_rank last s') j) as [Hlt|]; [|lia].
      exfalso. apply (Hbefore (scan_rank last s')); [lia|]. rewrite Hc. exact Hfree'.
    + intros q Hq ->. exact (Hq Hst).
  - exfalso.
    destruct (candidate_scan_rank last s) as [Hk Hc]; [lia|lia|].
    apply (alloc_loop_none _ _ _ E (scan_rank last s)).
    + lia.
    + unfold MAX_PROCESS_COUNT in *; simpl; lia.
    + fold last. rewrite Hc. exact Hfree.
Qed.

Lemma process_alloc_first_free_witness :
  (0 <= last_allocated_process alloc_demo_table < MAX_PROCESS_COUNT) /\
  (exists s, 1 <= s < MAX_PROCESS_COUNT /\
             status (processes alloc_demo_table s) = PROCESS_NOTEXIST) /\
  ((forall i, 1 <= i < MAX_PROCESS_COUNT ->
     1 <= alloc_candidate (last_allocated_process alloc_demo_table) i < MAX_PROCESS_COUNT) /\
   exists r,
    process_alloc alloc_demo_table = Some (r, mkShared r (processes alloc_demo_table)) /\
    1 <= r < MAX_PROCESS_COUNT /\
    status (processes alloc_demo_table r) = PROCESS_NOTEXIST /\
    (forall s, 1 <= s < MAX_PROCESS_COUNT ->
       status (processes alloc_demo_table s) = PROCESS_NOTEXIST ->
       scan_rank (last_allocated_process alloc_demo_table) r
       <= scan_rank (last_allocated_process alloc_demo_table) s) /\
    (forall q, status (processes alloc_demo_table q) <> PROCESS_NOTEXIST -> q <> r)).
Proof.
  assert (H1 : 0 <= last_allocated_process alloc_demo_table < MAX_PROCESS_COUNT)
    by (unfold alloc_demo_table, MAX_PROCESS_COUNT; simpl; lia).
  assert (H2 : exists s, 1 <= s < MAX_PROCESS_COUNT /\
                 status (processes alloc_demo_table s) = PROCESS_NOTEXIST)
    by (exists 1; split; [unfold MAX_PROCESS_COUNT; lia | reflexivity]).
  split; [exact H1|split; [exact H2|]].
  exact (process_alloc_first_free alloc_demo_table H1 H2).
Defined.

Example process_alloc_demo :
  process_alloc alloc_demo_table = Some (1, mkShared 1 (processes alloc_demo_table)).
Proof. vm_compute. reflexivity. Qed.

(** ** Bootstrap in [process_init] *)

(** When the slot right after the cursor is free, [process_alloc] takes it. *)
Lemma process_alloc_next_free (sh : process_shared_data) :
  0 <= last_allocated_process sh < MAX_PROCESS_COUNT - 1 ->
  status (processes sh (last_allocated_process sh + 1)) = PROCESS_NOTEXIST ->
  process_alloc sh = Some (last_allocated_process sh + 1,
                           mkShared (last_allocated_process sh + 1) (processes sh)).
Proof.
  intros Hl Hs. unfold process_alloc.
  destruct (Z.to_nat (MAX_PROCESS_COUNT - 1)) as [|f] eqn:E; [discriminate|].
  simpl. unfold alloc_candidate.
  destruct (Z.geb_spec (last_allocated_process sh + 1) MAX_PROCESS_COUNT); [lia|].
  rewrite Hs. reflexivity.
Qed.

(** C2. On the table of the very first allocation (cursor 0, every slot
    free), [process_init] creates the root identity in slot 1 (Running,
    ppid 0, pgid 1, sid 1, no native process, no signal pipe) and then gives
    the caller pid 2, whose slot has ppid 1 and pgid = sid = 2; no other slot
    changes. *)
Theorem process_init_bootstrap (sh : process_shared_data) (cur_win_pid sigwrite_h : Z) :
  last_allocated_process sh = 0 ->
  (forall q, status (processes sh q) = PROCESS_NOTEXIST) ->
  exists sh' ld,
    process_init sh cur_win_pid sigwrite_h = Some (sh', ld) /\
    pid ld = 2 /\ pid ld <> 1 /\
    processes sh' 1 = {| status := PROCESS_RUNNING; win_pid := 0; ppid := 0;
                         pgid := 1; sid := 1; sigwrite := 0 |} /\
    processes sh' (pid ld) = {| status := PROCESS_RUNNING; win_pid := cur_win_pid;
                                ppid := 1; pgid := pid ld; sid := pid ld;
                                sigwrite := sigwrite_h |} /\
    last_allocated_process sh' = 2 /\
    (forall q, q <> 1 -> q <> 2 -> processes sh' q = processes sh q).
Proof.
  intros Hl Hfree. unfold process_init.
  rewrite (process_alloc_next_free sh) by (rewrite ?Hl; auto; unfold MAX_PROCESS_COUNT; lia).
  rewrite Hl. simpl Z.add. simpl Z.eqb. cbv zeta.
  rewrite (process_alloc_next_free
             (set_slot (mkShared 1 (processes sh)) 1
                {| status := PROCESS_RUNNING; win_pid := 0; ppid := 0;
                   pgid := 1; sid := 1; sigwrite := 0 |})).
  2: { simpl; unfold MAX_PROCESS_COUNT; lia. }
  2: { simpl. unfold set_process. simpl. apply Hfree. }
  simpl. eexists _, _. split; [reflexivity|].
  simpl. repeat split; try discriminate.
  intros q H1 H2. unfold set_process.
  destruct (Z.eqb_spec q 2); [contradiction|]. destruct (Z.eqb_spec q 1); [contradiction|].
  reflexivity.
Qed.

Lemma process_init_bootstrap_witness :
  last_allocated_process shared_zero = 0 /\
  (forall q, status (processes shared_zero q) = PROCESS_NOTEXIST) /\
  exists sh' ld,
    process_init shared_zero 77 9 = Some (sh', ld) /\
    pid ld = 2 /\ pid ld <> 1 /\
    processes sh' 1 = {| status := PROCESS_RUNNING; win_pid := 0; ppid := 0;
                         pgid := 1; sid := 1; sigwrite := 0 |} /\
    processes sh' (pid ld) = {| status := PROCESS_RUNNING; win_pid := 77;
                                ppid := 1; pgid := pid ld; sid := pid ld;
                                sigwrite := 9 |} /\
    last_allocated_process sh' = 2 /\
    (forall q, q <> 1 -> q <> 2 -> processes sh' q = processes shared_zero q).
Proof.
  assert (H1 : last_allocated_process shared_zero = 0) by reflexivity.
  assert (H2 : forall q, status (processes shared_zero q) = PROCESS_NOTEXIST)
    by (intros; reflexivity).
  split; [exact H1|split; [exact H2|]].
  exact (process_init_bootstrap shared_zero 77 9 H1 H2).
Defined.

(** ** The list search of [process_wait] *)

Lemma slist_find_some (p : Z -> bool) (l pre post : list Z) (x : Z) :
  slist_find p l = Some (pre, x, post) ->
  l = pre ++ x :: post /\ p x = true /\ (forall y, In y pre -> p y = false).
Proof.
  revert pre; induction l as [|a l IH]; intros pre H; simpl in H; [discriminate|].
  destruct (p a) eqn:Ea.
  - injection H as <- <- <-. repeat split; auto. intros y [].
  - destruct (slist_find p l) as [[[pre' y'] post']|] eqn:E; [|discriminate].
    injection H as <- <- <-.
    destruct (IH pre' eq_refl) as (-> & Hx & Hpre).
    repeat split; auto. intros y [<-|Hy]; auto.
Qed.

Lemma slist_find_none (p : Z -> bool) (l : list Z) :
  slist_find p l = None -> forall y, In y l -> p y = false.
Proof.
  induction l as [|a l IH]; simpl; intros H y Hy; [contradiction|].
  destruct (p a) eqn:Ea; [discriminate|].
  destruct (slist_find p l) as [[[pre' y'] post']|]; [discriminate|].
  destruct Hy as [<-|Hy]; auto.
Qed.

(** The search returns the first node satisfying [p]. *)
Lemma slist_find_first (p : Z -> bool) (pre post : list Z) (x : Z) :
  p x = true -> (forall y, In y pre -> p y = false) ->
  slist_find p (pre ++ x :: post) = Some (pre, x, post).
Proof.
  intros Hx; induction pre as [|a pre IH]; intros Hpre; simpl.
  - rewrite Hx. reflexivity.
  - rewrite (Hpre a (or_introl eq_refl)).
    rewrite IH by (intros; apply Hpre; right; assumption). reflexivity.
Qed.

Lemma slist_find_in (p : Z -> bool) (l : list Z) (x : Z) :
  In x l -> p x = true -> exists pre y post, slist_find p l = Some (pre, y, post).
Proof.
  intros Hin Hx. destruct (slist_find p l) as [[[pre y] post]|] eqn:E; eauto.
  rewrite (slist_find_none p l E x Hin) in Hx. discriminate.
Qed.

(** ** Error results of [process_wait] *)

(** C3. A blocking wait ([WNOHANG] clear) that reaches its [signal_wait] --
    on a tracked child with the requested pid, or, for pid -1, with a
    non-zero child count -- and is interrupted returns [-EINTR] and changes
    nothing: child list, free list, child count, child records (with their
    [terminated] flags), the wait semaphore and the shared table are those
    before the call. *)
Theorem process_wait_interrupted (env : wait_env) (w : world) (wpid : Z)
  (status_nonnull : bool) (options : Z) (rusage_nonnull : bool) :
  has_WNOHANG options = false ->
  signal_wait_result env = WAIT_INTERRUPTED ->
  (0 < wpid /\ exists c, In c (child_list (local w)) /\
                         ChildProcess.pid (child (local w) c) = wpid) \/
  (wpid = -1 /\ child_count (local w) <> 0) ->
  process_wait env w wpid status_nonnull options rusage_nonnull = (- EINTR, w, None).
Proof.
  intros Hnh Hint [(Hpos & c & Hin & Hpid) | (-> & Hcnt)]; unfold process_wait.
  - destruct (Z.ltb_spec 0 wpid); [|lia].
    destruct (slist_find_in (fun c => ChildProcess.pid (child (local w) c) =? wpid)
                (child_list (local w)) c Hin) as (pre & y & post & E);
      [apply Z.eqb_eq; exact Hpid|].
    rewrite E, Hnh, Hint. reflexivity.
  - simpl. destruct (Z.eqb_spec (child_count (local w)) 0); [contradiction|].
    rewrite Hnh, Hint. reflexivity.
Qed.

Lemma process_wait_interrupted_witness :
  has_WNOHANG 0 = false /\
  signal_wait_result wait_demo_env = WAIT_INTERRUPTED /\
  ((0 < 5 /\ exists c, In c (child_list (local wait_demo_world)) /\
                       ChildProcess.pid (child (local wait_demo_world) c) = 5) \/
   (5 = -1 /\ child_count (local wait_demo_world) <> 0)) /\
  process_wait wait_demo_env wait_demo_world 5 true 0 false = (- EINTR, wait_demo_world, None).
Proof.
  assert (H1 : has_WNOHANG 0 = false) by reflexivity.
  assert (H2 : signal_wait_result wait_demo_env = WAIT_INTERRUPTED) by reflexivity.
  assert (H3 : (0 < 5 /\ exists c, In c (child_list (local wait_demo_world)) /\
                       ChildProcess.pid (child (local wait_demo_world) c) = 5) \/
               (5 = -1 /\ child_count (local wait_demo_world) <> 0)).
  { left. split; [lia|]. exists 0. split; [left; reflexivity | reflexivity]. }
  split; [exact H1|split; [exact H2|split; [exact H3|]]].
  exact (process_wait_interrupted wait_demo_env wait_demo_world 5 true 0 false H1 H2 H3).
Defined.

(** C4. For a specific pid > 0: when no record of the active child list has
    that pid, [process_wait] returns [-ECHILD] and changes nothing, whatever
    the options and without any [signal_wait]; when the first record with
    that pid is found, [WNOHANG] is set and the record is not terminated, it
    also returns [-ECHILD] and changes nothing. *)
Theorem process_wait_no_such_child (env : wait_env) (w : world) (wpid : Z)
  (status_nonnull : bool) (options : Z) (rusage_nonnull : bool) :
  0 < wpid ->
  ((forall c, In c (child_list (local w)) -> ChildProcess.pid (child (local w) c) <> wpid) ->
   process_wait env w wpid status_nonnull options rusage_nonnull = (- ECHILD, w, None)) /\
  (forall pre c post,
     child_list (local w) = pre ++ c :: post ->
     ChildProcess.pid (child (local w) c) = wpid ->
     (forall d, In d pre -> ChildProcess.pid (child (local w) d) <> wpid) ->
     has_WNOHANG options = true ->
     ChildProcess.terminated (child (local w) c) = false ->
     process_wait env w wpid status_nonnull options rusage_nonnull = (- ECHILD, w, None)).
Proof.
  intros Hpos. unfold process_wait.
  destruct (Z.ltb_spec 0 wpid); [|lia]. split.
  - intros Hnone.
    destruct (slist_find _ (child_list (local w))) as [[[pre y] post]|] eqn:E; [|reflexivity].
    destruct (slist_find_some _ _ _ _ _ E) as (Hl & Hy & _).
    exfalso. apply (Hnone y); [rewrite Hl; apply in_or_app; right; left; reflexivity|].
    apply Z.eqb_eq; exact Hy.
  - intros pre c post Hl Hc Hpre Hnh Ht.
    rewrite Hl, slist_find_first.
    + rewrite Hnh, Ht. reflexivity.
    + apply Z.eqb_eq; exact Hc.
    + intros d Hd. apply Z.eqb_neq. auto.
Qed.

Lemma process_wait_no_such_child_witness :
  (* not found: pid 999 among a single child of pid 5, blocking options *)
  0 < 999 /\
  (forall c, In c (child_list (local wait_demo_world)) ->
             ChildProcess.pid (child (local wait_demo_world) c) <> 999) /\
  process_wait wait_demo_env wait_demo_world 999 true 0 false
  = (- ECHILD, wait_demo_world, None) /\
  (* found with WNOHANG, not terminated: record 0 with pid 3 *)
  0 < 3 /\
  child_list (local child_demo_world) = [] ++ 0 :: [] /\
  ChildProcess.pid (child (local child_demo_world) 0) = 3 /\
  (forall d, In d [] -> ChildProcess.pid (child (local child_demo_world) d) <> 3) /\
  has_WNOHANG WNOHANG = true /\
  ChildProcess.terminated (child (local child_demo_world) 0) = false /\
  process_wait wait_ok_env child_demo_world 3 true WNOHANG false
  = (- ECHILD, child_demo_world, None).
Proof.
  assert (H : 0 < 999) by lia.
  assert (Hn : forall c, In c (child_list (local wait_demo_world)) ->
                         ChildProcess.pid (child (local wait_demo_world) c) <> 999).
  { intros c [<-|[]]. cbn. discriminate. }
  assert (H' : 0 < 3) by lia.
  assert (Hl : child_list (local child_demo_world) = [] ++ 0 :: []) by (vm_compute; reflexivity).
  assert (Hp : ChildProcess.pid (child (local child_demo_world) 0) = 3)
    by (vm_compute; reflexivity).
  assert (Hpre : forall d, In d [] -> ChildProcess.pid (child (local child_demo_world) d) <> 3)
    by (intros d []).
  assert (Hnh : has_WNOHANG WNOHANG = true) by reflexivity.
  assert (Ht : ChildProcess.terminated (child (local child_demo_world) 0) = false)
    by (vm_compute; reflexivity).
  split; [exact H|]. split; [exact Hn|].
  split; [exact (proj1 (process_wait_no_such_child wait_demo_env wait_demo_world 999 true 0
                          false H) Hn)|].
  split; [exact H'|]. split; [exact Hl|]. split; [exact Hp|]. split; [exact Hpre|].
  split; [exact Hnh|]. split; [exact Ht|].
  exact (proj2 (process_wait_no_such_child wait_ok_env child_demo_world 3 true WNOHANG false H')
           [] 0 [] Hl Hp Hpre Hnh Ht).
Defined.

(** C5. [process_wait(-1, ...)] by a process with no tracked child returns
    [-ECHILD] at once, whatever the options and the environment, and changes
    nothing. *)
Theorem process_wait_no_children (env : wait_env) (w : world)
  (status_nonnull : bool) (options : Z) (rusage_nonnull : bool) :
  child_count (local w) = 0 ->
  process_wait env w (-1) status_nonnull options rusage_nonnull = (- ECHILD, w, None).
Proof. intros H. unfold process_wait. simpl. rewrite H. reflexivity. Qed.

Lemma process_wait_no_children_witness :
  child_count (local (mkWorld shared_zero process_init_private 0 [])) = 0 /\
  process_wait wait_demo_env (mkWorld shared_zero process_init_private 0 []) (-1) true WNOHANG false
  = (- ECHILD, mkWorld shared_zero process_init_private 0 [], None).
Proof.
  assert (H : child_count (local (mkWorld shared_zero process_init_private 0 [])) = 0)
    by reflexivity.
  split; [exact H|].
  exact (process_wait_no_children wait_demo_env _ true WNOHANG false H).
Defined.

(** C8. A pid argument of 0 or below -1 makes [process_wait] return
    [-EINVAL] without waiting and without changing anything. *)
Theorem process_wait_invalid_pid (env : wait_env) (w : world) (wpid : Z)
  (status_nonnull : bool) (options : Z) (rusage_nonnull : bool) :
  wpid = 0 \/ wpid < -1 ->
  process_wait env w wpid status_nonnull options rusage_nonnull = (- EINVAL, w, None).
Proof.
  intros H. unfold process_wait.
  destruct (Z.ltb_spec 0 wpid); [lia|].
  destruct (Z.eqb_spec wpid (-1)); [lia|]. reflexivity.
Qed.

Lemma process_wait_invalid_pid_witness :
  (0 = 0 \/ 0 < -1) /\
  process_wait wait_demo_env wait_demo_world 0 true 0 false = (- EINVAL, wait_demo_world, None).
Proof.
  assert (H : 0 = 0 \/ 0 < -1) by (left; reflexivity).
  split; [exact H|].
  exact (process_wait_invalid_pid wait_demo_env wait_demo_world 0 true 0 false H).
Defined.

(** ** Reaping in [process_wait] *)

(** C6. [process_add_child] takes the first free record and adds it after
    the existing records of the active child list, so that list runs in the
    order in which the children were registered; and a [process_wait(-1)]
    call that gets past its blocking step (with [WNOHANG], or a
    [signal_wait] that was not interrupted) with a terminated record in the
    list reaps the first terminated record of the list: it returns that
    record's pid, removes it from the list (the others keeping their order),
    adds it to the free list and decrements the child count. *)
Theorem process_wait_any_first_terminated :
  (forall sh ld child_win_pid handle p sh' ld',
     process_add_child sh ld child_win_pid handle = Some (p, sh', ld') ->
     exists c, child_freelist ld = c :: child_freelist ld' /\
               child_list ld' = child_list ld ++ [c] /\
               ChildProcess.pid (child ld' c) = p /\
               ChildProcess.terminated (child ld' c) = false) /\
  (forall env w status_nonnull options rusage_nonnull pre c post,
     child_count (local w) <> 0 ->
     (has_WNOHANG options = true \/ signal_wait_result env = WAIT_OBJECT_0) ->
     child_list (local w) = pre ++ c :: post ->
     ChildProcess.terminated (child (local w) c) = true ->
     (forall d, In d pre -> ChildProcess.terminated (child (local w) d) = false) ->
     let '(ret, w', _) := process_wait env w (-1) status_nonnull options rusage_nonnull in
     ret = ChildProcess.pid (child (local w) c) /\
     child_list (local w') = pre ++ post /\
     child_freelist (local w') = child_freelist (local w) ++ [c] /\
     child_count (local w') = child_count (local w) - 1).
Proof.
  split.
  - intros sh ld wp h p sh' ld' H. unfold process_add_child in H.
    destruct (child_freelist ld) as [|c free'] eqn:Ef; [discriminate|].
    destruct (process_alloc sh) as [[p0 sh1]|]; [|discriminate].
    injection H as <- <- <-. exists c. simpl.
    unfold set_child. rewrite Z.eqb_refl. repeat split; reflexivity.
  - intros env w st options ru pre c post Hcnt Hgo Hl Ht Hpre.
    unfold process_wait. simpl.
    destruct (Z.eqb_spec (child_count (local w)) 0); [contradiction|].
    destruct (has_WNOHANG options) eqn:Hnh.
    + rewrite Hl, slist_find_first by auto. simpl.
      repeat split; reflexivity.
    + destruct Hgo as [Hgo|Hgo]; [discriminate|]. rewrite Hgo. simpl.
      rewrite Hl, slist_find_first by auto. simpl.
      repeat split; reflexivity.
Qed.

Lemma process_wait_any_first_terminated_witness :
  (* registration: the third child goes after the first two *)
  (exists p sh' ld',
     process_add_child (fst two_children_demo) (snd two_children_demo) 90 7
     = Some (p, sh', ld') /\
     exists c, child_freelist (snd two_children_demo) = c :: child_freelist ld' /\
               child_list ld' = child_list (snd two_children_demo) ++ [c] /\
               ChildProcess.pid (child ld' c) = p /\
               ChildProcess.terminated (child ld' c) = false) /\
  (* selection among two terminated records, after one that is not *)
  child_count (local three_children_world) <> 0 /\
  child_list (local three_children_world) = [0] ++ 1 :: [2] /\
  ChildProcess.terminated (child (local three_children_world) 1) = true /\
  ChildProcess.terminated (child (local three_children_world) 2) = true /\
  (forall d, In d [0] -> ChildProcess.terminated (child (local three_children_world) d) = false) /\
  ChildProcess.pid (child (local three_children_world) 1) = 4 /\
  let '(ret, w', _) :=
    process_wait wait_ok_env three_children_world (-1) true WNOHANG false in
  ret = ChildProcess.pid (child (local three_children_world) 1) /\
  child_list (local w') = [0] ++ [2] /\
  child_freelist (local w') = child_freelist (local three_children_world) ++ [1] /\
  child_count (local w') = child_count (local three_children_world) - 1.
Proof.
  assert (Hadd : exists p sh' ld',
     process_add_child (fst two_children_demo) (snd two_children_demo) 90 7
     = Some (p, sh', ld') /\
     exists c, child_freelist (snd two_children_demo) = c :: child_freelist ld' /\
               child_list ld' = child_list (snd two_children_demo) ++ [c] /\
               ChildProcess.pid (child ld' c) = p /\
               ChildProcess.terminated (child ld' c) = false).
  { destruct (process_add_child (fst two_children_demo) (snd two_children_demo) 90 7)
      as [[[p sh'] ld']|] eqn:E; [|vm_compute in E; discriminate].
    exists p, sh', ld'. split; [reflexivity|].
    exact (proj1 process_wait_any_first_terminated _ _ 90 7 p sh' ld' E). }
  assert (H1 : child_count (local three_children_world) <> 0) by (vm_compute; discriminate).
  assert (H2 : child_list (local three_children_world) = [0] ++ 1 :: [2])
    by (vm_compute; reflexivity).
  assert (H3 : ChildProcess.terminated (child (local three_children_world) 1) = true)
    by (vm_compute; reflexivity).
  assert (H3' : ChildProcess.terminated (child (local three_children_world) 2) = true)
    by (vm_compute; reflexivity).
  assert (H4 : forall d, In d [0] ->
                 ChildProcess.terminated (child (local three_children_world) d) = false).
  { intros d [<-|[]]. vm_compute. reflexivity. }
  assert (H5 : ChildProcess.pid (child (local three_children_world) 1) = 4)
    by (vm_compute; reflexivity).
  split; [exact Hadd|]. split; [exact H1|]. split; [exact H2|]. split; [exact H3|].
  split; [exact H3'|]. split; [exact H4|]. split; [exact H5|].
  exact (proj2 process_wait_any_first_terminated wait_ok_env three_children_world true WNOHANG
           false [0] 1 [2] H1 (or_introl eq_refl) H2 H3 H4).
Defined.

(** The status word built by [*status = W_EXITCODE(exitCode, 0)]: low byte 0,
    and the low byte of the exit code in the byte above it. *)
Lemma W_EXITCODE_bytes (x : Z) :
  Z.land (to_int32 (W_EXITCODE x 0)) 255 = 0 /\
  Z.land (Z.shiftr (to_int32 (W_EXITCODE x 0)) 8) 255 = Z.land x 255.
Proof.
  assert (Hw : W_EXITCODE x 0 = (x * 256) mod 2 ^ 32).
  { unfold W_EXITCODE. rewrite Z.lor_0_r, Z.shiftl_mul_pow2 by lia.
    change (2 ^ 32 - 1) with (Z.ones 32). rewrite Z.land_ones by lia. reflexivity. }
  assert (Ht : exists t, to_int32 (W_EXITCODE x 0) = t * 256 /\ t mod 256 = x mod 256).
  { unfold to_int32. rewrite Hw, Z.mod_mod by lia.
    pose proof (Z.div_mod (x * 256) (2 ^ 32)) as Hd.
    set (q := x * 256 / 2 ^ 32) in *.
    assert (Hm : (x * 256) mod 2 ^ 32 = (x - q * 2 ^ 24) * 256) by lia.
    rewrite Hm.
    destruct (Z.geb_spec ((x - q * 2 ^ 24) * 256) (2 ^ 31)).
    - exists (x - (q + 1) * 2 ^ 24). split; [lia|].
      replace (x - (q + 1) * 2 ^ 24) with (x + (- (q + 1) * 65536) * 256) by lia.
      apply Z.mod_add; lia.
    - exists (x - q * 2 ^ 24). split; [lia|].
      replace (x - q * 2 ^ 24) with (x + (- q * 65536) * 256) by lia.
      apply Z.mod_add; lia. }
  destruct Ht as (t & -> & Ht).
  change 255 with (Z.ones 8). rewrite !Z.land_ones by lia.
  rewrite Z.shiftr_div_pow2 by lia. change (2 ^ 8) with 256.
  rewrite Z.mod_mul, Z.div_mul by lia. auto.
Qed.

Ltac wait_error H :=
  injection H; intros; subst; contradiction.

(** C7, as the code has it. Every call of [process_wait] that returns
    neither [-ECHILD], [-EINTR] nor [-EINVAL] has reaped one record [c] of
    the active child list: it returns the record's pid; when [status] is
    non-NULL it stores [W_EXITCODE(exitCode, 0)] for the exit code of the
    record's native process, a word whose low byte is 0 (normal exit) and
    whose next byte is the low byte of the exit code; it closes the native
    handle, removes the record from the active list, puts it on the free list
    and decrements the child count; the shared process table, and with it
    the child's slot (still Running), is left as it was. *)
Theorem process_wait_reap_result (env : wait_env) (w : world) (wpid : Z)
  (status_nonnull : bool) (options : Z) (rusage_nonnull : bool)
  (ret : Z) (w' : world) (so : option Z) :
  process_wait env w wpid status_nonnull options rusage_nonnull = (ret, w', so) ->
  ret <> - ECHILD -> ret <> - EINTR -> ret <> - EINVAL ->
  exists pre c post,
    let code := exit_code_of env (ChildProcess.hProcess (child (local w) c)) in
    child_list (local w) = pre ++ c :: post /\
    ret = ChildProcess.pid (child (local w) c) /\
    so = (if status_nonnull then Some (to_int32 (W_EXITCODE code 0)) else None) /\
    (forall s, so = Some s -> Z.land s 255 = 0 /\ Z.land (Z.shiftr s 8) 255 = Z.land code 255) /\
    shared w' = shared w /\
    pid (local w') = pid (local w) /\
    child (local w') = child (local w) /\
    child_list (local w') = pre ++ post /\
    child_freelist (local w') = child_freelist (local w) ++ [c] /\
    child_count (local w') = child_count (local w) - 1 /\
    closed_handles w' = closed_handles w ++ [ChildProcess.hProcess (child (local w) c)].
Proof.
  intros H Hc Hi Hv.
  assert (Hbytes : forall x (b : bool) s,
             (if b then Some (to_int32 (W_EXITCODE x 0)) else None) = Some s ->
             Z.land s 255 = 0 /\ Z.land (Z.shiftr s 8) 255 = Z.land x 255).
  { intros x [|] s Hs; [injection Hs as <-; apply W_EXITCODE_bytes|discriminate]. }
  unfold process_wait in H.
  destruct (0 <? wpid).
  - destruct (slist_find _ _) as [[[pre c] post]|] eqn:E; [|wait_error H].
    destruct (slist_find_some _ _ _ _ _ E) as (Hl & _ & _).
    exists pre, c, post.
    destruct (has_WNOHANG options);
      [destruct (negb _); [wait_error H|]
      |destruct (signal_wait_result env); [|wait_error H]];
      unfold wait_finalize in H; simpl in H; injection H as <- <- <-;
      simpl; repeat split; auto;
      match goal with Hs : _ = Some _ |- _ => destruct (Hbytes _ _ _ Hs); assumption end.
  - destruct (wpid =? -1); [|wait_error H].
    destruct (child_count (local w) =? 0); [wait_error H|].
    destruct (has_WNOHANG options) eqn:Hnh;
      [|destruct (signal_wait_result env); [|wait_error H]];
      simpl in H;
      (destruct (slist_find _ _) as [[[pre c] post]|] eqn:E; [|wait_error H]);
      destruct (slist_find_some _ _ _ _ _ E) as (Hl & _ & _);
      exists pre, c, post;
      unfold wait_finalize in H; simpl in H; injection H as <- <- <-;
      simpl; repeat split; auto;
      match goal with Hs : _ = Some _ |- _ => destruct (Hbytes _ _ _ Hs); assumption end.
Qed.

Lemma process_wait_reap_result_witness :
  process_wait wait_demo_env wait_demo_world (-1) true WNOHANG false
  = (5, mkWorld shared_zero
          (mkData 2 0 [] [1; 2; 0] (child (local wait_demo_world))) 0 [555],
     Some 768) /\
  exists pre c post,
    let code := exit_code_of wait_demo_env
                  (ChildProcess.hProcess (child (local wait_demo_world) c)) in
    child_list (local wait_demo_world) = pre ++ c :: post /\
    5 = ChildProcess.pid (child (local wait_demo_world) c) /\
    Some 768 = Some (to_int32 (W_EXITCODE code 0)) /\
    (forall s, Some 768 = Some s ->
               Z.land s 255 = 0 /\ Z.land (Z.shiftr s 8) 255 = Z.land code 255) /\
    shared_zero = shared wait_demo_world /\
    2 = pid (local wait_demo_world) /\
    child (local wait_demo_world) = child (local wait_demo_world) /\
    [] = pre ++ post /\
    [1; 2; 0] = child_freelist (local wait_demo_world) ++ [c] /\
    0 = child_count (local wait_demo_world) - 1 /\
    [555] = closed_handles wait_demo_world ++
              [ChildProcess.hProcess (child (local wait_demo_world) c)].
Proof.
  assert (H : process_wait wait_demo_env wait_demo_world (-1) true WNOHANG false
              = (5, mkWorld shared_zero
                      (mkData 2 0 [] [1; 2; 0] (child (local wait_demo_world))) 0 [555],
                 Some 768)) by reflexivity.
  split; [exact H|].
  exact (process_wait_reap_result wait_demo_env wait_demo_world (-1) true WNOHANG false
           5 _ (Some 768) H ltac:(discriminate) ltac:(discriminate) ltac:(discriminate)).
Defined.

(** Counterexample to C7 as stated: the low byte of the status word does not
    hold the exit code. Reaping the demo child, whose native process exited
    with code 3, stores 768 = 3 << 8, whose low byte is 0. *)
Lemma process_wait_status_low_byte_not_code :
  snd (process_wait wait_demo_env wait_demo_world (-1) true WNOHANG false) = Some 768 /\
  exit_code_of wait_demo_env 555 = 3 /\
  Z.land 768 255 <> Z.land (exit_code_of wait_demo_env 555) 255.
Proof. split; [reflexivity|split; [reflexivity|discriminate]]. Qed.

(** ** [procfs_pid_iter] *)

Lemma skip_notexist_spec (fuel : nat) (procs : Z -> process) (t : Z) :
  t <= MAX_PROCESS_COUNT -> MAX_PROCESS_COUNT <= t + Z.of_nat fuel ->
  let r := skip_notexist fuel procs t in
  t <= r <= MAX_PROCESS_COUNT /\
  (forall q, t <= q < r -> status (procs q) = PROCESS_NOTEXIST) /\
  (r < MAX_PROCESS_COUNT -> status (procs r) <> PROCESS_NOTEXIST).
Proof.
  revert t; induction fuel as [|fuel IH]; intros t Ht Hf; simpl.
  - simpl in Hf. repeat split; try lia.
  - destruct (Z.ltb_spec t MAX_PROCESS_COUNT) as [Hlt|Hge]; simpl.
    + destruct (Z.eqb_spec (status (procs t)) PROCESS_NOTEXIST) as [E|E].
      * destruct (IH (t + 1)) as (Hr & Hq & Hs); [lia|lia|].
        repeat split; try lia; auto.
        intros q Hq'. destruct (Z.eq_dec q t) as [->|]; [exact E|]. apply Hq; lia.
      * repeat split; try lia; auto.
    + repeat split; try lia.
Qed.

(** C9, as the code has it. For a cursor in [0, MAX_PROCESS_COUNT] (the
    values the iteration itself hands back) and a table whose slot 0 is
    free, [procfs_pid_iter] ends the iteration exactly when no slot at or
    after the cursor is in use; otherwise it reports the first slot in use at
    or after the cursor -- never slot 0 -- as a directory entry named
    [ksprintf("%d", pid)], and returns that pid + 1 as the next cursor.
    A cursor above MAX_PROCESS_COUNT is not handled: the loop does not run
    and the end test [iter_tag == MAX_PROCESS_COUNT] fails, so every such
    cursor is itself reported as an entry, with the next cursor after it. *)
Theorem procfs_pid_iter_next_running (ksprintf_d : Z -> string)
  (sh : process_shared_data) (iter_tag : Z) :
  0 <= iter_tag <= MAX_PROCESS_COUNT ->
  status (processes sh 0) = PROCESS_NOTEXIST ->
  (procfs_pid_iter ksprintf_d sh iter_tag = VIRTUALFS_ITER_END <->
   forall q, iter_tag <= q < MAX_PROCESS_COUNT -> status (processes sh q) = PROCESS_NOTEXIST) /\
  (forall type name next_tag,
     procfs_pid_iter ksprintf_d sh iter_tag = IterEntry type name next_tag ->
     exists t, iter_tag <= t < MAX_PROCESS_COUNT /\ t <> 0 /\
       status (processes sh t) <> PROCESS_NOTEXIST /\
       (forall q, iter_tag <= q < t -> status (processes sh q) = PROCESS_NOTEXIST) /\
       type = DT_DIR /\ name = ksprintf_d t /\ next_tag = t + 1) /\
  (forall t, MAX_PROCESS_COUNT < t ->
     procfs_pid_iter ksprintf_d sh t = IterEntry DT_DIR (ksprintf_d t) (t + 1)).
Proof.
  intros Hc H0.
  assert (Hpast : forall t, MAX_PROCESS_COUNT < t ->
            procfs_pid_iter ksprintf_d sh t = IterEntry DT_DIR (ksprintf_d t) (t + 1)).
  { intros t Ht. unfold procfs_pid_iter.
    replace (Z.to_nat (MAX_PROCESS_COUNT - t)) with 0%nat by lia.
    cbn [skip_notexist]. rewrite (proj2 (Z.eqb_neq t MAX_PROCESS_COUNT)) by lia.
    reflexivity. }
  refine ((fun HAB => conj (proj1 HAB) (conj (proj2 HAB) Hpast)) _).
  unfold procfs_pid_iter.
  destruct (skip_notexist_spec (Z.to_nat (MAX_PROCESS_COUNT - iter_tag)) (processes sh) iter_tag)
    as (Hr & Hq & Hs); [lia|lia|].
  set (r := skip_notexist _ _ _) in *.
  destruct (Z.eqb_spec r MAX_PROCESS_COUNT) as [E|E].
  - split; [split; [intros _; rewrite <- E; exact Hq|reflexivity]|].
    intros ? ? ? Hd; discriminate.
  - assert (Hlt : r < MAX_PROCESS_COUNT) by lia.
    split.
    + split; [discriminate|]. intros Hall. exfalso. apply (Hs Hlt), Hall. lia.
    + intros type name next_tag Hentry. injection Hentry as <- <- <-.
      exists r. repeat split; try lia; auto.
      intros ->. exact (Hs Hlt H0).
Qed.

Lemma procfs_pid_iter_next_running_witness :
  (0 <= 0 <= MAX_PROCESS_COUNT) /\
  status (processes alloc_demo_table 0) = PROCESS_NOTEXIST /\
  procfs_pid_iter decimal alloc_demo_table 0 = IterEntry DT_DIR "4095" 4096 /\
  ((procfs_pid_iter decimal alloc_demo_table 0 = VIRTUALFS_ITER_END <->
    forall q, 0 <= q < MAX_PROCESS_COUNT ->
              status (processes alloc_demo_table q) = PROCESS_NOTEXIST) /\
   (forall type name next_tag,
      procfs_pid_iter decimal alloc_demo_table 0 = IterEntry type name next_tag ->
      exists t, 0 <= t < MAX_PROCESS_COUNT /\ t <> 0 /\
        status (processes alloc_demo_table t) <> PROCESS_NOTEXIST /\
        (forall q, 0 <= q < t -> status (processes alloc_demo_table q) = PROCESS_NOTEXIST) /\
        type = DT_DIR /\ name = decimal t /\ next_tag = t + 1) /\
   (forall t, MAX_PROCESS_COUNT < t ->
      procfs_pid_iter decimal alloc_demo_table t = IterEntry DT_DIR (decimal t) (t + 1))).
Proof.
  assert (H1 : 0 <= 0 <= MAX_PROCESS_COUNT) by (unfold MAX_PROCESS_COUNT; lia).
  assert (H2 : status (processes alloc_demo_table 0) = PROCESS_NOTEXIST) by reflexivity.
  split; [exact H1|split; [exact H2|split; [vm_compute; reflexivity|]]].
  exact (procfs_pid_iter_next_running decimal alloc_demo_table 0 H1 H2).
Defined.

(** Counterexample to C9 as stated ("for every cursor value"): from cursor
    4097, past the end of the table, the loop does not run, the test
    [iter_tag == MAX_PROCESS_COUNT] fails, and an entry "4097" is reported
    although no slot at or after the cursor is in use. *)
Lemma procfs_pid_iter_cursor_past_end :
  status (processes shared_zero 0) = PROCESS_NOTEXIST /\
  (forall q, 4097 <= q < MAX_PROCESS_COUNT ->
             status (processes shared_zero q) = PROCESS_NOTEXIST) /\
  procfs_pid_iter decimal shared_zero 4097 = IterEntry DT_DIR "4097" 4098.
Proof.
  split; [reflexivity|split; [intros q Hq; unfold MAX_PROCESS_COUNT in Hq; lia|]].
  vm_compute. reflexivity.
Qed.

(** ** [process_get_ppid] *)

(** C10. [process_get_ppid(pid)] returns the ppid of the caller's own slot,
    whatever [pid] is queried. *)
Theorem process_get_ppid_own_slot (sh : process_shared_data) (ld : process_data) (qpid : Z) :
  process_get_ppid sh ld qpid = ppid (processes sh (pid ld)) /\
  (forall qpid', process_get_ppid sh ld qpid' = process_get_ppid sh ld qpid).
Proof. split; reflexivity. Qed.

(** On the table built by [process_init] and [process_add_child], the parent
    of the child (pid 3, whose parent is 2) as seen by the caller (pid 2) is
    the caller's own parent, 1. *)
Example process_get_ppid_other_pid :
  match process_init shared_zero 77 9 with
  | Some (sh, ld) =>
      match process_add_child sh ld 100 555 with
      | Some (p, sh', ld') =>
          p = 3 /\ ppid (processes sh' 3) = 2 /\ process_get_ppid sh' ld' 3 = 1
      | None => False
      end
  | None => False
  end.
Proof. vm_compute. repeat split. Qed.

(* ========================================================================= *)
(** * Further properties of the code *)

(** ** Helpers *)

Lemma process_alloc_some (sh sh1 : process_shared_data) (r : Z) :
  0 <= last_allocated_process sh < MAX_PROCESS_COUNT ->
  process_alloc sh = Some (r, sh1) ->
  sh1 = mkShared r (processes sh) /\ status (processes sh r) = PROCESS_NOTEXIST /\
  1 <= r < MAX_PROCESS_COUNT.
Proof.
  unfold process_alloc; intros Hl H.
  destruct (alloc_loop _ sh 1) as [c|] eqn:E; [|discriminate].
  injection H as <- <-.
  destruct (alloc_loop_some _ _ _ _ E) as (j & Hj & Hc & Hs & _).
  repeat split; auto; subst c; apply alloc_candidate_range; lia.
Qed.

(** Without the cursor hypothesis: the slot found was free. *)
Lemma process_alloc_some_free (sh sh1 : process_shared_data) (r : Z) :
  process_alloc sh = Some (r, sh1) ->
  sh1 = mkShared r (processes sh) /\ status (processes sh r) = PROCESS_NOTEXIST.
Proof.
  unfold process_alloc; intros H.
  destruct (alloc_loop _ sh 1) as [c|] eqn:E; [|discriminate].
  injection H as <- <-.
  destruct (alloc_loop_some _ _ _ _ E) as (j & _ & _ & Hs & _). auto.
Qed.

Lemma process_alloc_none_full (sh : process_shared_data) :
  0 <= last_allocated_process sh < MAX_PROCESS_COUNT ->
  (process_alloc sh = None <->
   forall s, 1 <= s < MAX_PROCESS_COUNT -> status (processes sh s) <> PROCESS_NOTEXIST).
Proof.
  intros Hl. split.
  - unfold process_alloc. intros H s Hs Hfree.
    destruct (alloc_loop _ sh 1) as [c|] eqn:E; [discriminate|].
    destruct (candidate_scan_rank (last_allocated_process sh) s) as [Hk Hc]; [lia|lia|].
    apply (alloc_loop_none _ _ _ E (scan_rank (last_allocated_process sh) s)).
    + lia.
    + unfold MAX_PROCESS_COUNT in *; simpl; lia.
    + rewrite Hc. exact Hfree.
  - intros Hfull. destruct (process_alloc sh) as [[r sh1]|] eqn:E; [|reflexivity].
    destruct (process_alloc_some _ _ _ Hl E) as (_ & Hs & Hr).
    exfalso. exact (Hfull r Hr Hs).
Qed.

Lemma fold_left_slist_add (l acc : list Z) :
  fold_left slist_add l acc = acc ++ l.
Proof.
  revert acc; induction l as [|x l IH]; intros acc; simpl.
  - rewrite app_nil_r. reflexivity.
  - rewrite IH. unfold slist_add. rewrite <- app_assoc. reflexivity.
Qed.

Lemma process_init_private_freelist :
  child_freelist process_init_private = map Z.of_nat (seq 0 (Z.to_nat MAX_CHILD_COUNT)).
Proof.
  change (child_freelist process_init_private)
    with (fold_left slist_add (map Z.of_nat (seq 0 (Z.to_nat MAX_CHILD_COUNT))) []).
  rewrite fold_left_slist_add. reflexivity.
Qed.

Lemma process_init_private_inv (sh : process_shared_data) (p : Z) :
  0 <= last_allocated_process sh < MAX_PROCESS_COUNT ->
  status (processes sh p) <> PROCESS_NOTEXIST ->
  child_inv sh (set_pid process_init_private p).
Proof.
  intros Hl Hs. unfold child_inv, set_pid.
  rewrite process_init_private_freelist.
  change (child_list process_init_private) with (@nil Z).
  change (child_count process_init_private) with 0.
  cbn [pid child_list child_freelist child_count app].
  split; [exact Hl|]. split; [exact Hs|].
  split; [apply NoDup_map_NoDup_ForallPairs; [intros a b _ _; apply Nat2Z.inj|apply seq_NoDup]|].
  split.
  { intros c Hc. apply in_map_iff in Hc as (k & <- & Hk). apply in_seq in Hk.
    unfold MAX_CHILD_COUNT in *. lia. }
  split; [rewrite length_map, length_seq; reflexivity|].
  split; [reflexivity|].
  split; [intros c []|]. intros c1 c2 [].
Qed.

(** ** Allocation *)

(** [process_alloc] fails (the [__debugbreak()] path) exactly when every
    slot 1 .. MAX_PROCESS_COUNT - 1 is in use. *)
Theorem process_alloc_fails_iff_full (sh : process_shared_data) :
  0 <= last_allocated_process sh < MAX_PROCESS_COUNT ->
  (process_alloc sh = None <->
   forall s, 1 <= s < MAX_PROCESS_COUNT -> status (processes sh s) <> PROCESS_NOTEXIST).
Proof. apply process_alloc_none_full. Qed.

Lemma process_alloc_fails_iff_full_witness :
  (0 <= last_allocated_process alloc_demo_table < MAX_PROCESS_COUNT) /\
  (process_alloc alloc_demo_table = None <->
   forall s, 1 <= s < MAX_PROCESS_COUNT ->
             status (processes alloc_demo_table s) <> PROCESS_NOTEXIST).
Proof.
  assert (H : 0 <= last_allocated_process alloc_demo_table < MAX_PROCESS_COUNT)
    by (unfold alloc_demo_table, MAX_PROCESS_COUNT; simpl; lia).
  split; [exact H|]. exact (process_alloc_fails_iff_full alloc_demo_table H).
Defined.

Lemma process_init_some (sh sh' : process_shared_data) (ld : process_data)
  (cur_win_pid sigwrite_h : Z) :
  0 <= last_allocated_process sh < MAX_PROCESS_COUNT ->
  process_init sh cur_win_pid sigwrite_h = Some (sh', ld) ->
  2 <= pid ld < MAX_PROCESS_COUNT /\
  status (processes sh (pid ld)) = PROCESS_NOTEXIST /\
  processes sh' (pid ld) = {| status := PROCESS_RUNNING; win_pid := cur_win_pid; ppid := 1;
                              pgid := pid ld; sid := pid ld; sigwrite := sigwrite_h |} /\
  last_allocated_process sh' = pid ld /\
  (forall q, q <> 1 -> q <> pid ld -> processes sh' q = processes sh q) /\
  child_count ld = 0 /\ child_list ld = [] /\
  child_inv sh' ld.
Proof.
  intros Hl H. unfold process_init in H.
  destruct (process_alloc sh) as [[p0 sh1]|] eqn:E0; [|discriminate].
  destruct (process_alloc_some _ _ _ Hl E0) as (-> & Hs0 & Hr0).
  set (root := {| status := PROCESS_RUNNING; win_pid := 0; ppid := 0;
                  pgid := 1; sid := 1; sigwrite := 0 |}) in H.
  assert (Hcase : exists p sh3,
             (if p0 =? 1 then process_alloc (set_slot (mkShared p0 (processes sh)) 1 root)
              else Some (p0, mkShared p0 (processes sh))) = Some (p, sh3) /\
             2 <= p < MAX_PROCESS_COUNT /\ status (processes sh p) = PROCESS_NOTEXIST /\
             last_allocated_process sh3 = p /\
             (forall q, q <> 1 -> processes sh3 q = processes sh q)).
  { destruct (Z.eqb_spec p0 1) as [->|Hne].
    - destruct (process_alloc (set_slot (mkShared 1 (processes sh)) 1 root))
        as [[p sh3]|] eqn:E1.
      + assert (Hl1 : 0 <= last_allocated_process
                             (set_slot (mkShared 1 (processes sh)) 1 root) < MAX_PROCESS_COUNT)
          by (simpl; unfold MAX_PROCESS_COUNT; lia).
        destruct (process_alloc_some _ _ _ Hl1 E1) as (-> & Hs1 & Hr1).
        simpl in Hs1. unfold set_process in Hs1.
        destruct (Z.eqb_spec p 1) as [->|Hp1]; [discriminate|].
        exists p, (mkShared p (set_process (processes sh) 1 root)).
        repeat split; auto; try lia.
        intros q Hq. simpl. unfold set_process. destruct (Z.eqb_spec q 1); [contradiction|].
        reflexivity.
      + (* the second allocation failed *)
        exfalso. discriminate H.
    - exists p0, (mkShared p0 (processes sh)). repeat split; auto; lia. }
  destruct Hcase as (p & sh3 & Hr & Hp & Hsp & Hlast & Hother).
  rewrite Hr in H. injection H as <- <-.
  split; [simpl; lia|]. split; [exact Hsp|].
  split; [simpl; unfold set_process; rewrite Z.eqb_refl; reflexivity|].
  split; [simpl; exact Hlast|].
  split.
  { intros q Hq1 Hqp. simpl in *. unfold set_process.
    destruct (Z.eqb_spec q p); [contradiction|auto]. }
  split; [reflexivity|]. split; [reflexivity|].
  apply process_init_private_inv; simpl; [lia|].
  unfold set_process. rewrite Z.eqb_refl. discriminate.
Qed.


(** [process_init] on any table with a valid cursor: the caller gets a pid
    in [2, MAX_PROCESS_COUNT) -- never 0 nor the root's 1 -- whose slot was
    free; that slot becomes Running with ppid 1, pgid = sid = the pid, and
    the given native pid and signal pipe; the cursor moves to the pid; every
    slot but the caller's and slot 1 is left as it was; and the caller's
    local state satisfies the child-tracker invariant, with no children and
    the whole pool free. *)
Theorem process_init_caller_slot (sh sh' : process_shared_data) (ld : process_data)
  (cur_win_pid sigwrite_h : Z) :
  0 <= last_allocated_process sh < MAX_PROCESS_COUNT ->
  process_init sh cur_win_pid sigwrite_h = Some (sh', ld) ->
  2 <= pid ld < MAX_PROCESS_COUNT /\
  status (processes sh (pid ld)) = PROCESS_NOTEXIST /\
  processes sh' (pid ld) = {| status := PROCESS_RUNNING; win_pid := cur_win_pid; ppid := 1;
                              pgid := pid ld; sid := pid ld; sigwrite := sigwrite_h |} /\
  last_allocated_process sh' = pid ld /\
  (forall q, q <> 1 -> q <> pid ld -> processes sh' q = processes sh q) /\
  child_count ld = 0 /\ child_list ld = [] /\
  child_inv sh' ld.
Proof. apply process_init_some. Qed.

Lemma process_init_caller_slot_witness :
  exists sh' ld,
    process_init shared_zero 77 9 = Some (sh', ld) /\
    (0 <= last_allocated_process shared_zero < MAX_PROCESS_COUNT) /\
    (2 <= pid ld < MAX_PROCESS_COUNT /\
     status (processes shared_zero (pid ld)) = PROCESS_NOTEXIST /\
     processes sh' (pid ld) = {| status := PROCESS_RUNNING; win_pid := 77; ppid := 1;
                                 pgid := pid ld; sid := pid ld; sigwrite := 9 |} /\
     last_allocated_process sh' = pid ld /\
     (forall q, q <> 1 -> q <> pid ld -> processes sh' q = processes shared_zero q) /\
     child_count ld = 0 /\ child_list ld = [] /\
     child_inv sh' ld).
Proof.
  destruct (process_init shared_zero 77 9) as [[sh' ld]|] eqn:E;
    [|vm_compute in E; discriminate].
  assert (Hl : 0 <= last_allocated_process shared_zero < MAX_PROCESS_COUNT)
    by (unfold MAX_PROCESS_COUNT; simpl; lia).
  exists sh', ld. split; [reflexivity|split; [exact Hl|]].
  exact (process_init_caller_slot shared_zero sh' ld 77 9 Hl E).
Defined.

(** ** [process_add_child] *)

Lemma process_add_child_some (sh sh' : process_shared_data) (ld ld' : process_data)
  (child_win_pid handle p : Z) :
  0 <= last_allocated_process sh < MAX_PROCESS_COUNT ->
  status (processes sh (pid ld)) <> PROCESS_NOTEXIST ->
  process_add_child sh ld child_win_pid handle = Some (p, sh', ld') ->
  exists c free',
    child_freelist ld = c :: free' /\
    status (processes sh p) = PROCESS_NOTEXIST /\ 1 <= p < MAX_PROCESS_COUNT /\
    p <> pid ld /\
    last_allocated_process sh' = p /\
    processes sh' p = mkProcess PROCESS_RUNNING child_win_pid
                        (pgid (processes sh (pid ld))) (pid ld)
                        (sid (processes sh (pid ld))) 0 /\
    (forall q, q <> p -> processes sh' q = processes sh q) /\
    ld' = mkData (pid ld) (child_count ld + 1) (child_list ld ++ [c]) free'
            (set_child (child ld) c (ChildProcess.mkChild p handle false)).
Proof.
  intros Hl Hown H. unfold process_add_child in H.
  destruct (child_freelist ld) as [|c free'] eqn:Ef; [discriminate|].
  destruct (process_alloc sh) as [[p0 sh1]|] eqn:E; [|discriminate].
  destruct (process_alloc_some _ _ _ Hl E) as (-> & Hs & Hr).
  injection H as <- <- <-.
  assert (Hne : p0 <> pid ld) by (intros Heq; rewrite Heq in Hs; contradiction).
  assert (Hne' : (pid ld =? p0) = false) by (apply Z.eqb_neq; auto).
  exists c, free'.
  split; [reflexivity|]. split; [exact Hs|]. split; [exact Hr|]. split; [exact Hne|].
  split; [reflexivity|].
  split; [cbn; unfold set_process; rewrite !Z.eqb_refl, !Hne'; reflexivity|].
  split; [|reflexivity].
  intros q Hq. cbn. unfold set_process.
  destruct (Z.eqb_spec q p0); [contradiction|reflexivity].
Qed.

Lemma process_add_child_none (sh : process_shared_data) (ld : process_data)
  (child_win_pid handle : Z) :
  process_add_child sh ld child_win_pid handle = None <->
  child_freelist ld = [] \/ process_alloc sh = None.
Proof.
  unfold process_add_child.
  destruct (child_freelist ld) as [|c free']; [tauto|].
  destruct (process_alloc sh) as [[p0 sh1]|]; split; intros H;
    try discriminate; try tauto; destruct H as [H|H]; discriminate.
Qed.

Lemma in_snoc_other (l : list Z) (c x : Z) : In x (l ++ [c]) -> x <> c -> In x l.
Proof.
  intros H Hne. apply in_app_or in H as [H|[H|[]]]; [exact H|congruence].
Qed.

Lemma child_inv_add_child (sh sh' : process_shared_data) (ld ld' : process_data)
  (child_win_pid handle p : Z) :
  child_inv sh ld ->
  process_add_child sh ld child_win_pid handle = Some (p, sh', ld') ->
  child_inv sh' ld'.
Proof.
  intros Hinv H.
  destruct Hinv as (Hl & Hown & Hnd & Hrange & Hlen & Hcount & Hact & Hdist).
  destruct (process_add_child_some _ _ _ _ _ _ _ Hl Hown H)
    as (c & free' & Ef & Hsp & Hp & Hpne & Hlast & Hslot & Hother & ->).
  rewrite Ef in Hnd, Hrange, Hlen.
  (* an active child's slot is in use, so it is not the slot just allocated *)
  assert (Hactp : forall x, In x (child_list ld) -> ChildProcess.pid (child ld x) <> p).
  { intros x Hx Heq. destruct (Hact x Hx) as [_ Hs]. rewrite Heq in Hs. contradiction. }
  unfold child_inv; cbn [pid child_count child_list child_freelist child].
  split; [rewrite Hlast; lia|].
  split; [rewrite Hother by congruence; exact Hown|].
  split; [rewrite <- app_assoc; exact Hnd|].
  split; [intros x Hx; apply Hrange; rewrite <- app_assoc in Hx; exact Hx|].
  split; [rewrite length_app in *; simpl in *; lia|].
  split; [rewrite Hcount, length_app; simpl; lia|].
  split.
  - intros x Hx. unfold set_child. destruct (Z.eqb_spec x c) as [->|Hxc].
    + cbn. split; [lia|]. rewrite Hslot. discriminate.
    + apply (in_snoc_other _ _ _ Hx) in Hxc as Hx'.
      destruct (Hact x Hx') as [Hr Hs]. split; [exact Hr|].
      rewrite Hother by (apply Hactp; exact Hx'). exact Hs.
  - intros c1 c2 H1 H2. unfold set_child.
    destruct (Z.eqb_spec c1 c) as [->|H1c]; destruct (Z.eqb_spec c2 c) as [->|H2c];
      cbn; intros Heq.
    + reflexivity.
    + exfalso. apply (Hactp c2 (in_snoc_other _ _ _ H2 H2c)). auto.
    + exfalso. apply (Hactp c1 (in_snoc_other _ _ _ H1 H1c)). auto.
    + apply Hdist; auto; eapply in_snoc_other; eauto.
Qed.

Lemma child_inv_freelist_empty (sh : process_shared_data) (ld : process_data) :
  child_inv sh ld -> (child_freelist ld = [] <-> child_count ld = MAX_CHILD_COUNT).
Proof.
  intros (_ & _ & _ & _ & Hlen & Hcount & _). rewrite Hcount.
  unfold MAX_CHILD_COUNT in *. simpl in Hlen. split.
  - intros Hf. rewrite Hf in Hlen. simpl in Hlen. lia.
  - intros Hc. apply length_zero_iff_nil. lia.
Qed.

Lemma init_demo_inv :
  0 <= last_allocated_process (fst init_demo) < MAX_PROCESS_COUNT /\
  child_inv (fst init_demo) (snd init_demo).
Proof.
  unfold init_demo.
  destruct (process_init shared_zero 77 9) as [[sh' ld]|] eqn:E;
    [|vm_compute in E; discriminate].
  destruct (process_init_some shared_zero sh' ld 77 9) as (_ & _ & _ & _ & _ & _ & _ & Hinv);
    [simpl; unfold MAX_PROCESS_COUNT; lia|exact E|].
  split; [apply Hinv|exact Hinv].
Qed.

(** [process_add_child] in a process whose own slot is in use, with a valid
    cursor: the new pid is in [1, MAX_PROCESS_COUNT), was a free slot (so it
    is not the caller's pid), and becomes the cursor; its slot is Running with
    the given native pid, the caller's pgid and sid, the caller's pid as
    ppid, and no signal pipe; no other slot changes; the head of the free
    list becomes the record (pid, handle, not terminated), appended to the
    active list, and the child count grows by one. *)
Theorem process_add_child_new_slot (sh sh' : process_shared_data) (ld ld' : process_data)
  (child_win_pid handle p : Z) :
  0 <= last_allocated_process sh < MAX_PROCESS_COUNT ->
  status (processes sh (pid ld)) <> PROCESS_NOTEXIST ->
  process_add_child sh ld child_win_pid handle = Some (p, sh', ld') ->
  exists c free',
    child_freelist ld = c :: free' /\
    status (processes sh p) = PROCESS_NOTEXIST /\ 1 <= p < MAX_PROCESS_COUNT /\
    p <> pid ld /\
    last_allocated_process sh' = p /\
    processes sh' p = mkProcess PROCESS_RUNNING child_win_pid
                        (pgid (processes sh (pid ld))) (pid ld)
                        (sid (processes sh (pid ld))) 0 /\
    (forall q, q <> p -> processes sh' q = processes sh q) /\
    ld' = mkData (pid ld) (child_count ld + 1) (child_list ld ++ [c]) free'
            (set_child (child ld) c (ChildProcess.mkChild p handle false)).
Proof. apply process_add_child_some. Qed.

Lemma process_add_child_new_slot_witness :
  exists sh' ld' p,
    (0 <= last_allocated_process (fst init_demo) < MAX_PROCESS_COUNT) /\
    status (processes (fst init_demo) (pid (snd init_demo))) <> PROCESS_NOTEXIST /\
    process_add_child (fst init_demo) (snd init_demo) 88 5 = Some (p, sh', ld') /\
    exists c free',
      child_freelist (snd init_demo) = c :: free' /\
      status (processes (fst init_demo) p) = PROCESS_NOTEXIST /\
      1 <= p < MAX_PROCESS_COUNT /\
      p <> pid (snd init_demo) /\
      last_allocated_process sh' = p /\
      processes sh' p = mkProcess PROCESS_RUNNING 88
                          (pgid (processes (fst init_demo) (pid (snd init_demo))))
                          (pid (snd init_demo))
                          (sid (processes (fst init_demo) (pid (snd init_demo)))) 0 /\
      (forall q, q <> p -> processes sh' q = processes (fst init_demo) q) /\
      ld' = mkData (pid (snd init_demo)) (child_count (snd init_demo) + 1)
              (child_list (snd init_demo) ++ [c]) free'
              (set_child (child (snd init_demo)) c (ChildProcess.mkChild p 5 false)).
Proof.
  destruct (process_add_child (fst init_demo) (snd init_demo) 88 5)
    as [[[p sh'] ld']|] eqn:E; [|vm_compute in E; discriminate].
  destruct init_demo_inv as [Hl Hinv].
  assert (Hs : status (processes (fst init_demo) (pid (snd init_demo))) <> PROCESS_NOTEXIST)
    by (vm_compute; discriminate).
  exists sh', ld', p. split; [exact Hl|]. split; [exact Hs|]. split; [reflexivity|].
  exact (process_add_child_new_slot _ _ _ _ 88 5 p Hl Hs E).
Defined.

(** With the child-tracker invariant, [process_add_child] fails (the
    [__debugbreak()] paths) exactly when [MAX_CHILD_COUNT] children are
    already tracked or every slot 1 .. MAX_PROCESS_COUNT - 1 is in use. *)
Theorem process_add_child_fails_iff (sh : process_shared_data) (ld : process_data)
  (child_win_pid handle : Z) :
  child_inv sh ld ->
  (process_add_child sh ld child_win_pid handle = None <->
   child_count ld = MAX_CHILD_COUNT \/
   forall s, 1 <= s < MAX_PROCESS_COUNT -> status (processes sh s) <> PROCESS_NOTEXIST).
Proof.
  intros Hinv. rewrite process_add_child_none, (child_inv_freelist_empty _ _ Hinv).
  rewrite (process_alloc_none_full _ (proj1 Hinv)). tauto.
Qed.

Lemma process_add_child_fails_iff_witness :
  child_inv (fst init_demo) (snd init_demo) /\
  (process_add_child (fst init_demo) (snd init_demo) 88 5 = None <->
   child_count (snd init_demo) = MAX_CHILD_COUNT \/
   forall s, 1 <= s < MAX_PROCESS_COUNT ->
             status (processes (fst init_demo) s) <> PROCESS_NOTEXIST).
Proof.
  destruct init_demo_inv as [_ Hinv].
  split; [exact Hinv|]. exact (process_add_child_fails_iff _ _ 88 5 Hinv).
Defined.

(** [process_add_child] keeps the child-tracker invariant. *)
Theorem process_add_child_preserves_inv (sh sh' : process_shared_data)
  (ld ld' : process_data) (child_win_pid handle p : Z) :
  child_inv sh ld ->
  process_add_child sh ld child_win_pid handle = Some (p, sh', ld') ->
  child_inv sh' ld'.
Proof. apply child_inv_add_child. Qed.

Lemma process_add_child_preserves_inv_witness :
  exists sh' ld' p,
    child_inv (fst init_demo) (snd init_demo) /\
    process_add_child (fst init_demo) (snd init_demo) 88 5 = Some (p, sh', ld') /\
    child_inv sh' ld'.
Proof.
  destruct (process_add_child (fst init_demo) (snd init_demo) 88 5)
    as [[[p sh'] ld']|] eqn:E; [|vm_compute in E; discriminate].
  destruct init_demo_inv as [_ Hinv].
  exists sh', ld', p. split; [exact Hinv|]. split; [reflexivity|].
  exact (process_add_child_preserves_inv _ _ _ _ 88 5 p Hinv E).
Defined.

(** ** [process_wait] *)

(** Every outcome of [process_wait]: an error that leaves the table, the
    child tracker and the handles alone and takes at most one unit of the
    wait semaphore, or the reaping of one active record. *)
Lemma process_wait_cases (env : wait_env) (w : world) (wpid : Z) (status_nonnull : bool)
  (options : Z) (rusage_nonnull : bool) (r : Z) (w' : world) (st : option Z) :
  process_wait env w wpid status_nonnull options rusage_nonnull = (r, w', st) ->
  (r < 0 /\ st = None /\ shared w' = shared w /\ local w' = local w /\
   closed_handles w' = closed_handles w /\
   (wait_semaphore w' = wait_semaphore w \/ wait_semaphore w' = wait_semaphore w - 1))
  \/
  (exists pre c post,
     child_list (local w) = pre ++ c :: post /\
     r = ChildProcess.pid (child (local w) c) /\
     shared w' = shared w /\
     local w' = mkData (pid (local w)) (child_count (local w) - 1) (pre ++ post)
                  (child_freelist (local w) ++ [c]) (child (local w)) /\
     wait_semaphore w' = wait_semaphore w - 1 /\
     closed_handles w' = closed_handles w ++ [ChildProcess.hProcess (child (local w) c)] /\
     st = if status_nonnull
          then Some (to_int32 (W_EXITCODE
                                 (exit_code_of env (ChildProcess.hProcess (child (local w) c)))
                                 0))
          else None).
Proof.
  intros H.
  assert (Herr : forall e w1, (e = ECHILD \/ e = EINTR \/ e = EINVAL) ->
            (w1 = w \/ w1 = sem_dec w) -> (- e, w1, None) = (r, w', st) ->
            r < 0 /\ st = None /\ shared w' = shared w /\ local w' = local w /\
            closed_handles w' = closed_handles w /\
            (wait_semaphore w' = wait_semaphore w \/
             wait_semaphore w' = wait_semaphore w - 1)).
  { intros e w1 He Hw1 E. injection E as <- <- <-.
    split; [unfold ECHILD, EINTR, EINVAL in He; lia|]. split; [reflexivity|].
    destruct Hw1 as [->| ->]; cbn; auto. }
  assert (Hok : forall pre c post, child_list (local w) = pre ++ c :: post ->
            wait_finalize env (reap_record (sem_dec w) pre c post) c status_nonnull
            = (r, w', st) ->
            exists pre c post,
              child_list (local w) = pre ++ c :: post /\
              r = ChildProcess.pid (child (local w) c) /\
              shared w' = shared w /\
              local w' = mkData (pid (local w)) (child_count (local w) - 1) (pre ++ post)
                           (child_freelist (local w) ++ [c]) (child (local w)) /\
              wait_semaphore w' = wait_semaphore w - 1 /\
              closed_handles w' =
                closed_handles w ++ [ChildProcess.hProcess (child (local w) c)] /\
              st = if status_nonnull
                   then Some (to_int32 (W_EXITCODE
                                          (exit_code_of env
                                             (ChildProcess.hProcess (child (local w) c))) 0))
                   else None).
  { intros pre c post Hl E. injection E as <- <- <-.
    exists pre, c, post. split; [exact Hl|]. repeat split; reflexivity. }
  unfold process_wait in H.
  destruct (Z.ltb_spec 0 wpid) as [Hpos|Hpos].
  - destruct (slist_find (fun c => ChildProcess.pid (child (local w) c) =? wpid)
                (child_list (local w))) as [[[pre c] post]|] eqn:Ef;
      [|left; refine (Herr _ _ _ _ H); auto].
    apply slist_find_some in Ef as (Hl & _ & _).
    destruct (has_WNOHANG options).
    + destruct (ChildProcess.terminated (child (local w) c)); cbn [negb] in H;
        [right; exact (Hok _ _ _ Hl H)|left; refine (Herr _ _ _ _ H); auto].
    + destruct (signal_wait_result env);
        [right; exact (Hok _ _ _ Hl H)|left; refine (Herr _ _ _ _ H); auto].
  - destruct (Z.eqb_spec wpid (-1)) as [Hm|Hm]; [|left; refine (Herr _ _ _ _ H); auto].
    destruct (child_count (local w) =? 0); [left; refine (Herr _ _ _ _ H); auto|].
    destruct (has_WNOHANG options) eqn:Hn.
    + destruct (slist_find (fun c => ChildProcess.terminated (child (local w) c))
                  (child_list (local w))) as [[[pre c] post]|] eqn:Ef;
        [|left; refine (Herr _ _ _ _ H); auto].
      apply slist_find_some in Ef as (Hl & _ & _).
      right; exact (Hok _ _ _ Hl H).
    + destruct (signal_wait_result env); [|left; refine (Herr _ _ _ _ H); auto].
      cbn [sem_dec local] in H.
      destruct (slist_find (fun c => ChildProcess.terminated (child (local w) c))
                  (child_list (local w))) as [[[pre c] post]|] eqn:Ef;
        [|left; refine (Herr _ _ _ _ H); auto].
      apply slist_find_some in Ef as (Hl & _ & _).
      right; exact (Hok _ _ _ Hl H).
Qed.

Lemma slist_find_all_false (p : Z -> bool) (l : list Z) :
  (forall y, In y l -> p y = false) -> slist_find p l = None.
Proof.
  induction l as [|a l IH]; intros H; simpl; [reflexivity|].
  rewrite (H a (or_introl eq_refl)), IH; [reflexivity|].
  intros y Hy. apply H. right. exact Hy.
Qed.

Lemma child_inv_nodup_active (sh : process_shared_data) (ld : process_data) :
  child_inv sh ld -> NoDup (child_list ld).
Proof. intros (_ & _ & Hnd & _). exact (NoDup_app_remove_r _ _ Hnd). Qed.

Lemma child_inv_reap (sh : process_shared_data) (ld : process_data)
  (pre post : list Z) (c : Z) :
  child_inv sh ld -> child_list ld = pre ++ c :: post ->
  child_inv sh (mkData (pid ld) (child_count ld - 1) (pre ++ post)
                  (child_freelist ld ++ [c]) (child ld)).
Proof.
  intros (Hl & Hown & Hnd & Hrange & Hlen & Hcount & Hact & Hdist) Hcl.
  rewrite Hcl in Hnd, Hrange, Hlen, Hcount, Hact, Hdist.
  assert (Hperm : Permutation ((pre ++ c :: post) ++ child_freelist ld)
                    ((pre ++ post) ++ child_freelist ld ++ [c])).
  { rewrite <- !app_assoc. apply Permutation_app_head.
    rewrite app_assoc. apply Permutation_cons_append. }
  assert (Hin : forall x, In x (pre ++ post) -> In x (pre ++ c :: post)).
  { intros x Hx. apply in_app_or in Hx as [Hx|Hx]; apply in_or_app; [left|right; right]; exact Hx. }
  unfold child_inv; cbn [pid child_count child_list child_freelist child].
  split; [exact Hl|]. split; [exact Hown|].
  split; [exact (Permutation_NoDup Hperm Hnd)|].
  split; [intros x Hx; apply Hrange; apply (Permutation_in _ (Permutation_sym Hperm)); exact Hx|].
  split; [rewrite !length_app in *; simpl in *; lia|].
  split; [rewrite Hcount, !length_app; simpl; lia|].
  split; [intros x Hx; apply Hact, Hin, Hx|].
  intros c1 c2 H1 H2. apply Hdist; apply Hin; assumption.
Qed.

Lemma child_demo_inv : child_inv (fst child_demo) (snd child_demo).
Proof.
  unfold child_demo.
  destruct (process_add_child (fst init_demo) (snd init_demo) 88 5)
    as [[[p sh] ld]|] eqn:E; [|vm_compute in E; discriminate].
  exact (child_inv_add_child _ _ _ _ _ _ _ (proj2 init_demo_inv) E).
Qed.

(** [process_wait] keeps the child-tracker invariant, and under it the
    value returned is an error (negative) or the pid of a process slot,
    never 0. *)
Theorem process_wait_preserves_inv (env : wait_env) (w : world) (wpid : Z)
  (status_nonnull : bool) (options : Z) (rusage_nonnull : bool)
  (r : Z) (w' : world) (st : option Z) :
  child_inv (shared w) (local w) ->
  process_wait env w wpid status_nonnull options rusage_nonnull = (r, w', st) ->
  child_inv (shared w') (local w') /\ (r < 0 \/ 1 <= r < MAX_PROCESS_COUNT).
Proof.
  intros Hinv H.
  destruct (process_wait_cases _ _ _ _ _ _ _ _ _ H)
    as [(Hr & _ & Hs & Hl & _)|(pre & c & post & Hcl & Hr & Hs & Hl & _)].
  - rewrite Hs, Hl. split; [exact Hinv|left; exact Hr].
  - rewrite Hs, Hl. split; [exact (child_inv_reap _ _ _ _ _ Hinv Hcl)|right].
    destruct Hinv as (_ & _ & _ & _ & _ & _ & Hact & _).
    rewrite Hr. apply Hact. rewrite Hcl. apply in_or_app. right. left. reflexivity.
Qed.

Lemma process_wait_preserves_inv_witness :
  exists r w' st,
    child_inv (shared child_demo_world) (local child_demo_world) /\
    process_wait wait_ok_env child_demo_world 3 true 0 false = (r, w', st) /\
    child_inv (shared w') (local w') /\ (r < 0 \/ 1 <= r < MAX_PROCESS_COUNT).
Proof.
  destruct (process_wait wait_ok_env child_demo_world 3 true 0 false) as [[r w'] st] eqn:E.
  exists r, w', st. split; [exact child_demo_inv|]. split; [reflexivity|].
  exact (process_wait_preserves_inv wait_ok_env child_demo_world 3 true 0 false r w' st
           child_demo_inv E).
Defined.

(** The effect of any [process_wait] call. Either it fails: the result is
    negative, nothing is stored through [status], the table, the child
    tracker and the closed handles are unchanged, and at most one unit of
    the wait semaphore is taken. Or it reaps one active record [c]: it
    returns [c]'s pid, [c] leaves the active list (the others keep their
    order) and is appended to the free list, the child count drops by one,
    exactly one semaphore unit is taken, [c]'s handle is closed, and the
    status stored is [W_EXITCODE] of its exit code. *)
Theorem process_wait_effect (env : wait_env) (w : world) (wpid : Z) (status_nonnull : bool)
  (options : Z) (rusage_nonnull : bool) (r : Z) (w' : world) (st : option Z) :
  process_wait env w wpid status_nonnull options rusage_nonnull = (r, w', st) ->
  (r < 0 /\ st = None /\ shared w' = shared w /\ local w' = local w /\
   closed_handles w' = closed_handles w /\
   (wait_semaphore w' = wait_semaphore w \/ wait_semaphore w' = wait_semaphore w - 1))
  \/
  (exists pre c post,
     child_list (local w) = pre ++ c :: post /\
     r = ChildProcess.pid (child (local w) c) /\
     shared w' = shared w /\
     local w' = mkData (pid (local w)) (child_count (local w) - 1) (pre ++ post)
                  (child_freelist (local w) ++ [c]) (child (local w)) /\
     wait_semaphore w' = wait_semaphore w - 1 /\
     closed_handles w' = closed_handles w ++ [ChildProcess.hProcess (child (local w) c)] /\
     st = if status_nonnull
          then Some (to_int32 (W_EXITCODE
                                 (exit_code_of env (ChildProcess.hProcess (child (local w) c)))
                                 0))
          else None).
Proof. apply process_wait_cases. Qed.

Lemma process_wait_effect_witness :
  exists r w' st,
    process_wait wait_ok_env wait_demo_world (-1) true 0 false = (r, w', st) /\
    ((r < 0 /\ st = None /\ shared w' = shared wait_demo_world /\
      local w' = local wait_demo_world /\
      closed_handles w' = closed_handles wait_demo_world /\
      (wait_semaphore w' = wait_semaphore wait_demo_world \/
       wait_semaphore w' = wait_semaphore wait_demo_world - 1))
     \/
     (exists pre c post,
        child_list (local wait_demo_world) = pre ++ c :: post /\
        r = ChildProcess.pid (child (local wait_demo_world) c) /\
        shared w' = shared wait_demo_world /\
        local w' = mkData (pid (local wait_demo_world)) (child_count (local wait_demo_world) - 1)
                     (pre ++ post) (child_freelist (local wait_demo_world) ++ [c])
                     (child (local wait_demo_world)) /\
        wait_semaphore w' = wait_semaphore wait_demo_world - 1 /\
        closed_handles w' = closed_handles wait_demo_world ++
                              [ChildProcess.hProcess (child (local wait_demo_world) c)] /\
        st = Some (to_int32 (W_EXITCODE
                               (exit_code_of wait_ok_env
                                  (ChildProcess.hProcess (child (local wait_demo_world) c)))
                               0)))).
Proof.
  destruct (process_wait wait_ok_env wait_demo_world (-1) true 0 false) as [[r w'] st] eqn:E.
  exists r, w', st. split; [reflexivity|].
  exact (process_wait_effect wait_ok_env wait_demo_world (-1) true 0 false r w' st E).
Defined.

(** A blocking [waitpid(-1, ...)] whose [signal_wait] on the wait semaphore
    succeeds, while no tracked child is marked terminated, returns [-ECHILD]
    although children are tracked, and has still taken one unit of the wait
    semaphore. *)
Theorem process_wait_any_blocking_none_terminated (env : wait_env) (w : world)
  (status_nonnull : bool) (options : Z) (rusage_nonnull : bool) :
  has_WNOHANG options = false ->
  signal_wait_result env = WAIT_OBJECT_0 ->
  child_count (local w) <> 0 ->
  (forall c, In c (child_list (local w)) ->
             ChildProcess.terminated (child (local w) c) = false) ->
  process_wait env w (-1) status_nonnull options rusage_nonnull = (- ECHILD, sem_dec w, None).
Proof.
  intros Hn Hsig Hc Hterm. unfold process_wait.
  cbn [Z.ltb Z.compare Z.eqb]. rewrite (proj2 (Z.eqb_neq _ _) Hc), Hn, Hsig.
  cbn [sem_dec local]. rewrite (slist_find_all_false _ _ Hterm). reflexivity.
Qed.

Lemma process_wait_any_blocking_none_terminated_witness :
  has_WNOHANG 0 = false /\ signal_wait_result wait_ok_env = WAIT_OBJECT_0 /\
  child_count (local child_demo_world) <> 0 /\
  (forall c, In c (child_list (local child_demo_world)) ->
             ChildProcess.terminated (child (local child_demo_world) c) = false) /\
  process_wait wait_ok_env child_demo_world (-1) true 0 false
  = (- ECHILD, sem_dec child_demo_world, None).
Proof.
  assert (H1 : has_WNOHANG 0 = false) by reflexivity.
  assert (H2 : signal_wait_result wait_ok_env = WAIT_OBJECT_0) by reflexivity.
  assert (H3 : child_count (local child_demo_world) <> 0) by (vm_compute; discriminate).
  assert (H4 : forall c, In c (child_list (local child_demo_world)) ->
                         ChildProcess.terminated (child (local child_demo_world) c) = false).
  { vm_compute. intros c [<-|[]]. reflexivity. }
  split; [exact H1|]. split; [exact H2|]. split; [exact H3|]. split; [exact H4|].
  exact (process_wait_any_blocking_none_terminated wait_ok_env child_demo_world true 0 false
           H1 H2 H3 H4).
Defined.

(** With the child-tracker invariant, [waitpid(pid, ..., WNOHANG)] on the pid
    of a tracked child reaps that very record when it is marked terminated;
    when it is not, the call returns [-ECHILD] (not 0) and changes nothing. *)
Theorem process_wait_pid_nohang (env : wait_env) (w : world) (wpid : Z)
  (status_nonnull : bool) (options : Z) (rusage_nonnull : bool)
  (pre : list Z) (c : Z) (post : list Z) :
  child_inv (shared w) (local w) ->
  child_list (local w) = pre ++ c :: post ->
  ChildProcess.pid (child (local w) c) = wpid ->
  has_WNOHANG options = true ->
  process_wait env w wpid status_nonnull options rusage_nonnull =
  if ChildProcess.terminated (child (local w) c)
  then wait_finalize env (reap_record (sem_dec w) pre c post) c status_nonnull
  else (- ECHILD, w, None).
Proof.
  intros Hinv Hcl Hpid Hn.
  pose proof (child_inv_nodup_active _ _ Hinv) as Hnd.
  destruct Hinv as (_ & _ & _ & _ & _ & _ & Hact & Hdist).
  assert (Hc : In c (child_list (local w))) by (rewrite Hcl; apply in_or_app; right; left; reflexivity).
  destruct (Hact c Hc) as [Hr _].
  unfold process_wait.
  rewrite (proj2 (Z.ltb_lt 0 wpid)) by lia.
  rewrite Hcl, slist_find_first.
  - rewrite Hn. destruct (ChildProcess.terminated (child (local w) c)); reflexivity.
  - rewrite Hpid. apply Z.eqb_refl.
  - intros y Hy. apply Z.eqb_neq. intros Heq.
    assert (Hyc : y = c).
    { apply Hdist; [rewrite Hcl; apply in_or_app; left; exact Hy|exact Hc|congruence]. }
    subst y. rewrite Hcl in Hnd. apply NoDup_remove_2 in Hnd.
    apply Hnd. apply in_or_app. left. exact Hy.
Qed.

Lemma process_wait_pid_nohang_witness :
  child_inv (shared child_demo_world) (local child_demo_world) /\
  child_list (local child_demo_world) = [] ++ 0 :: [] /\
  ChildProcess.pid (child (local child_demo_world) 0) = 3 /\
  has_WNOHANG WNOHANG = true /\
  process_wait wait_ok_env child_demo_world 3 true WNOHANG false =
  if ChildProcess.terminated (child (local child_demo_world) 0)
  then wait_finalize wait_ok_env (reap_record (sem_dec child_demo_world) [] 0 []) 0 true
  else (- ECHILD, child_demo_world, None).
Proof.
  assert (H2 : child_list (local child_demo_world) = [] ++ 0 :: []) by (vm_compute; reflexivity).
  assert (H3 : ChildProcess.pid (child (local child_demo_world) 0) = 3) by (vm_compute; reflexivity).
  assert (H4 : has_WNOHANG WNOHANG = true) by reflexivity.
  split; [exact child_demo_inv|]. split; [exact H2|]. split; [exact H3|]. split; [exact H4|].
  exact (process_wait_pid_nohang wait_ok_env child_demo_world 3 true WNOHANG false [] 0 []
           child_demo_inv H2 H3 H4).
Defined.

Lemma process_wait_any_nohang_head (env : wait_env) (w : world) (status_nonnull : bool)
  (options : Z) (rusage_nonnull : bool) (c : Z) (l : list Z) :
  has_WNOHANG options = true ->
  child_list (local w) = c :: l -> child_count (local w) <> 0 ->
  ChildProcess.terminated (child (local w) c) = true ->
  process_wait env w (-1) status_nonnull options rusage_nonnull =
  wait_finalize env (reap_record (sem_dec w) [] c l) c status_nonnull.
Proof.
  intros Hn Hcl Hc Ht. unfold process_wait.
  cbn [Z.ltb Z.compare Z.eqb]. rewrite (proj2 (Z.eqb_neq _ _) Hc), Hn, Hcl.
  cbn [slist_find]. rewrite Ht. reflexivity.
Qed.

Lemma wait_any_nohang_repeat_drain (env : wait_env) (l : list Z) (w : world) :
  child_list (local w) = l -> child_count (local w) = Z.of_nat (List.length l) ->
  (forall c, In c l -> ChildProcess.terminated (child (local w) c) = true) ->
  wait_any_nohang_repeat env w (List.length l) =
  (map (fun c => ChildProcess.pid (child (local w) c)) l,
   mkWorld (shared w)
     (mkData (pid (local w)) 0 [] (child_freelist (local w) ++ l) (child (local w)))
     (wait_semaphore w - Z.of_nat (List.length l))
     (closed_handles w ++ map (fun c => ChildProcess.hProcess (child (local w) c)) l)).
Proof.
  revert w; induction l as [|c l IH]; intros w Hcl Hcount Hterm.
  - destruct w as [sh [p cnt cl fl ch] sem cls]; cbn in *. subst.
    rewrite !app_nil_r, Z.sub_0_r. reflexivity.
  - change (List.length (c :: l)) with (S (List.length l)).
    cbn [wait_any_nohang_repeat].
    assert (Hc : child_count (local w) <> 0) by (rewrite Hcount; simpl; lia).
    rewrite (process_wait_any_nohang_head env w false WNOHANG false c l eq_refl Hcl Hc
               (Hterm c (or_introl eq_refl))).
    unfold wait_finalize, reap_record, sem_dec. cbn [local shared wait_semaphore closed_handles
      child_count child_list child_freelist child pid].
    rewrite IH; cbn [local shared wait_semaphore closed_handles
      child_count child_list child_freelist child pid].
    + f_equal. f_equal.
      * unfold slist_add. rewrite <- app_assoc. reflexivity.
      * lia.
      * rewrite <- app_assoc. reflexivity.
    + reflexivity.
    + rewrite Hcount. cbn [List.length]. lia.
    + intros c' Hc'. apply Hterm. right. exact Hc'.
Qed.

(** When the child count matches the active list and every tracked child is
    marked terminated, as many calls [waitpid(-1, NULL, WNOHANG)] as there
    are children return their pids in the order the children were added,
    move every record to the free list (in that order), bring the child
    count to 0, take one semaphore unit and close one handle per child, and
    leave the table alone; the next such call returns [-ECHILD]. *)
Theorem wait_any_nohang_drains (env : wait_env) (w : world) :
  child_count (local w) = Z.of_nat (List.length (child_list (local w))) ->
  (forall c, In c (child_list (local w)) -> ChildProcess.terminated (child (local w) c) = true) ->
  wait_any_nohang_repeat env w (List.length (child_list (local w))) =
  (map (fun c => ChildProcess.pid (child (local w) c)) (child_list (local w)),
   mkWorld (shared w)
     (mkData (pid (local w)) 0 []
        (child_freelist (local w) ++ child_list (local w)) (child (local w)))
     (wait_semaphore w - Z.of_nat (List.length (child_list (local w))))
     (closed_handles w ++
      map (fun c => ChildProcess.hProcess (child (local w) c)) (child_list (local w)))) /\
  (let w' := snd (wait_any_nohang_repeat env w (List.length (child_list (local w)))) in
   process_wait env w' (-1) false WNOHANG false = (- ECHILD, w', None)).
Proof.
  intros Hcount Hterm.
  rewrite (wait_any_nohang_repeat_drain env _ w eq_refl Hcount Hterm).
  split; reflexivity.
Qed.

Lemma wait_any_nohang_drains_witness :
  child_count (local wait_demo_world) =
    Z.of_nat (List.length (child_list (local wait_demo_world))) /\
  (forall c, In c (child_list (local wait_demo_world)) ->
             ChildProcess.terminated (child (local wait_demo_world) c) = true) /\
  wait_any_nohang_repeat wait_ok_env wait_demo_world 1 =
  ([5], mkWorld (shared wait_demo_world)
          (mkData 2 0 [] [1; 2; 0] (child (local wait_demo_world))) 0 [555]).
Proof.
  assert (H1 : child_count (local wait_demo_world) =
                 Z.of_nat (List.length (child_list (local wait_demo_world)))) by reflexivity.
  assert (H2 : forall c, In c (child_list (local wait_demo_world)) ->
                         ChildProcess.terminated (child (local wait_demo_world) c) = true).
  { intros c [<-|[]]. reflexivity. }
  split; [exact H1|]. split; [exact H2|].
  exact (proj1 (wait_any_nohang_drains wait_ok_env wait_demo_world H1 H2)).
Defined.

(** ** Fork: [process_add_child] in the parent, [process_afterfork] in the child *)

(** After the parent registers a child with [process_add_child] and the
    child runs [process_afterfork] with the pid it was given: the child's
    [getpid] is that pid, its [getppid] is the parent's pid, its session and
    process group (by [getpgrp], or [getpgid(0)]) are the parent's, the
    parent's [getpgid] of the child gives the same group, the child's pid
    exists, its slot holds the child's signal pipe, and the child starts
    with no children of its own, with the child-tracker invariant. *)
Theorem process_afterfork_after_add_child (sh sh1 sh2 : process_shared_data)
  (ld ld1 ld2 : process_data) (child_win_pid handle p sigwrite_h : Z) :
  0 <= last_allocated_process sh < MAX_PROCESS_COUNT ->
  status (processes sh (pid ld)) <> PROCESS_NOTEXIST ->
  process_add_child sh ld child_win_pid handle = Some (p, sh1, ld1) ->
  process_afterfork sh1 p sigwrite_h = (sh2, ld2) ->
  pid ld2 = p /\
  process_get_ppid sh2 ld2 0 = pid ld /\
  process_get_sid sh2 ld2 = process_get_sid sh ld /\
  sys_getpgrp sh2 ld2 = sys_getpgrp sh ld /\
  process_get_pgid sh2 ld2 0 = sys_getpgrp sh ld /\
  process_get_pgid sh2 ld p = sys_getpgrp sh ld /\
  process_pid_exist sh2 p = true /\
  sigwrite (processes sh2 p) = sigwrite_h /\
  child_count ld2 = 0 /\ child_list ld2 = [] /\
  child_inv sh2 ld2.
Proof.
  intros Hl Hown Hadd Hfork.
  destruct (process_add_child_some _ _ _ _ _ _ _ Hl Hown Hadd)
    as (c & free' & _ & _ & Hp & Hpne & Hlast & Hslot & Hother & _).
  unfold process_afterfork in Hfork. injection Hfork as <- <-.
  assert (Hslot2 : processes (set_slot sh1 p
             (mkProcess (status (processes sh1 p)) (win_pid (processes sh1 p))
                (pgid (processes sh1 p)) (ppid (processes sh1 p)) (sid (processes sh1 p))
                sigwrite_h)) p =
           mkProcess PROCESS_RUNNING child_win_pid (pgid (processes sh (pid ld))) (pid ld)
             (sid (processes sh (pid ld))) sigwrite_h).
  { cbn. unfold set_process. rewrite Z.eqb_refl, Hslot. reflexivity. }
  assert (Hpid : pid (set_pid process_init_private p) = p) by reflexivity.
  assert (Hp0 : (p =? 0) = false) by (apply Z.eqb_neq; lia).
  assert (Hg : sys_getpgrp sh ld = pgid (processes sh (pid ld))).
  { unfold sys_getpgrp, process_get_pgid.
    destruct (pid ld =? 0); cbv beta iota zeta;
      rewrite (proj2 (Z.eqb_neq _ _) Hown); reflexivity. }
  rewrite Hg.
  unfold sys_getpgrp, process_get_ppid, process_get_sid, process_get_pgid, process_pid_exist.
  rewrite Hpid, Hp0, Z.eqb_refl. cbv beta iota zeta.
  rewrite Hslot2. cbn [status pgid ppid sid sigwrite].
  split; [reflexivity|]. split; [reflexivity|]. split; [reflexivity|].
  split; [reflexivity|]. split; [reflexivity|]. split; [reflexivity|].
  split; [destruct (Z.ltb_spec p 0); [lia|]; destruct (Z.geb_spec p MAX_PROCESS_COUNT);
          [lia|reflexivity]|].
  split; [reflexivity|]. split; [reflexivity|]. split; [reflexivity|].
  apply process_init_private_inv.
  - cbn. rewrite Hlast. lia.
  - rewrite Hslot2. discriminate.
Qed.

Lemma process_afterfork_after_add_child_witness :
  exists sh1 ld1 p sh2 ld2,
    (0 <= last_allocated_process (fst init_demo) < MAX_PROCESS_COUNT) /\
    status (processes (fst init_demo) (pid (snd init_demo))) <> PROCESS_NOTEXIST /\
    process_add_child (fst init_demo) (snd init_demo) 88 5 = Some (p, sh1, ld1) /\
    process_afterfork sh1 p 6 = (sh2, ld2) /\
    pid ld2 = p /\
    process_get_ppid sh2 ld2 0 = pid (snd init_demo) /\
    process_get_sid sh2 ld2 = process_get_sid (fst init_demo) (snd init_demo) /\
    sys_getpgrp sh2 ld2 = sys_getpgrp (fst init_demo) (snd init_demo) /\
    process_get_pgid sh2 ld2 0 = sys_getpgrp (fst init_demo) (snd init_demo) /\
    process_get_pgid sh2 (snd init_demo) p = sys_getpgrp (fst init_demo) (snd init_demo) /\
    process_pid_exist sh2 p = true /\
    sigwrite (processes sh2 p) = 6 /\
    child_count ld2 = 0 /\ child_list ld2 = [] /\
    child_inv sh2 ld2.
Proof.
  destruct (process_add_child (fst init_demo) (snd init_demo) 88 5)
    as [[[p sh1] ld1]|] eqn:E; [|vm_compute in E; discriminate].
  destruct (process_afterfork sh1 p 6) as [sh2 ld2] eqn:F.
  destruct init_demo_inv as [Hl _].
  assert (Hs : status (processes (fst init_demo) (pid (snd init_demo))) <> PROCESS_NOTEXIST)
    by (vm_compute; discriminate).
  exists sh1, ld1, p, sh2, ld2.
  split; [exact Hl|]. split; [exact Hs|]. split; [reflexivity|]. split; [exact F|].
  exact (process_afterfork_after_add_child (fst init_demo) sh1 sh2 (snd init_demo) ld1 ld2
           88 5 p 6 Hl Hs E F).
Defined.

(** ** Listing /proc *)

Lemma skip_notexist_filter (procs : Z -> process) (n : nat) (t : Z) :
  t + Z.of_nat n = MAX_PROCESS_COUNT ->
  match filter (fun s => negb (status (procs s) =? PROCESS_NOTEXIST)) (slots_from n t) with
  | [] => skip_notexist n procs t = MAX_PROCESS_COUNT
  | x :: rest =>
      skip_notexist n procs t = x /\ t <= x < MAX_PROCESS_COUNT /\
      rest = filter (fun s => negb (status (procs s) =? PROCESS_NOTEXIST))
               (slots_from (Z.to_nat (MAX_PROCESS_COUNT - x - 1)) (x + 1))
  end.
Proof.
  revert t; induction n as [|n IH]; intros t Ht; cbn [slots_from filter skip_notexist].
  - lia.
  - rewrite (proj2 (Z.ltb_lt t MAX_PROCESS_COUNT)) by lia. cbn [andb].
    destruct (status (procs t) =? PROCESS_NOTEXIST) eqn:Es; cbn [negb].
    + specialize (IH (t + 1) ltac:(lia)).
      destruct (filter _ (slots_from n (t + 1))) as [|x rest]; [exact IH|].
      destruct IH as (Hx & Hr & Hrest). repeat split; auto; lia.
    + split; [reflexivity|]. split; [lia|].
      replace (Z.to_nat (MAX_PROCESS_COUNT - t - 1)) with n by lia. reflexivity.
Qed.

Lemma procfs_pid_iter_all_filter (ksprintf_d : Z -> string) (sh : process_shared_data)
  (fuel n : nat) (t : Z) :
  t + Z.of_nat n = MAX_PROCESS_COUNT -> (n < fuel)%nat ->
  procfs_pid_iter_all ksprintf_d sh fuel t =
  map ksprintf_d
    (filter (fun s => negb (status (processes sh s) =? PROCESS_NOTEXIST)) (slots_from n t)).
Proof.
  revert n t; induction fuel as [|fuel IH]; intros n t Ht Hf; [lia|].
  cbn [procfs_pid_iter_all]. unfold procfs_pid_iter.
  replace (Z.to_nat (MAX_PROCESS_COUNT - t)) with n by lia.
  pose proof (skip_notexist_filter (processes sh) n t Ht) as Hs.
  destruct (filter _ (slots_from n t)) as [|x rest].
  - rewrite Hs, Z.eqb_refl. reflexivity.
  - destruct Hs as (-> & Hx & ->).
    rewrite (proj2 (Z.eqb_neq x MAX_PROCESS_COUNT)) by lia.
    cbn [map]. f_equal. apply IH; lia.
Qed.

(** Listing /proc with [procfs_pid_iter]: started at a cursor in
    [0, MAX_PROCESS_COUNT] and resumed at each returned cursor, with enough
    calls, the iteration names every slot in use from the cursor on, once
    each and in increasing order, and nothing else. *)
Theorem procfs_pid_iter_lists_running (ksprintf_d : Z -> string) (sh : process_shared_data)
  (fuel : nat) (t : Z) :
  0 <= t <= MAX_PROCESS_COUNT -> (Z.to_nat (MAX_PROCESS_COUNT - t) < fuel)%nat ->
  procfs_pid_iter_all ksprintf_d sh fuel t =
  map ksprintf_d
    (filter (fun s => negb (status (processes sh s) =? PROCESS_NOTEXIST))
       (slots_from (Z.to_nat (MAX_PROCESS_COUNT - t)) t)).
Proof. intros Ht Hf. apply procfs_pid_iter_all_filter; [lia|exact Hf]. Qed.

Lemma procfs_pid_iter_lists_running_witness :
  (0 <= 0 <= MAX_PROCESS_COUNT) /\ (Z.to_nat (MAX_PROCESS_COUNT - 0) < 4097)%nat /\
  procfs_pid_iter_all decimal alloc_demo_table 4097 0 =
  map decimal
    (filter (fun s => negb (status (processes alloc_demo_table s) =? PROCESS_NOTEXIST))
       (slots_from (Z.to_nat (MAX_PROCESS_COUNT - 0)) 0)).
Proof.
  assert (H1 : 0 <= 0 <= MAX_PROCESS_COUNT) by (unfold MAX_PROCESS_COUNT; lia).
  assert (H2 : (Z.to_nat (MAX_PROCESS_COUNT - 0) < 4097)%nat)
    by (apply Nat.ltb_lt; vm_compute; reflexivity).
  split; [exact H1|]. split; [exact H2|].
  exact (procfs_pid_iter_lists_running decimal alloc_demo_table 4097 0 H1 H2).
Defined.

(** ** sched_getaffinity *)

Lemma sched_getaffinity_bytes (size_t_bits cpusetsize : Z) :
  0 <= cpusetsize <= 2 ^ 31 - 8 -> 32 <= size_t_bits ->
  to_int32 (Z.land (Z.land (cpusetsize + 7) (Z.lnot 7)) (Z.ones size_t_bits)) =
  8 * ((cpusetsize + 7) / 8).
Proof.
  intros Hc Hb.
  assert (Hr : Z.land (cpusetsize + 7) (Z.lnot 7) = 8 * ((cpusetsize + 7) / 8)).
  { change 7 with (Z.ones 3) at 2. rewrite <- Z.ldiff_land, Z.ldiff_ones_r by lia.
    rewrite Z.shiftl_mul_pow2, Z.shiftr_div_pow2 by lia. change (2 ^ 3) with 8. lia. }
  assert (H8 : 0 <= 8 * ((cpusetsize + 7) / 8) <= cpusetsize + 7).
  { pose proof (Z.mul_div_le (cpusetsize + 7) 8). split; [|lia].
    apply Z.mul_nonneg_nonneg; [lia|apply Z.div_pos; lia]. }
  assert (Hp : 2 ^ 31 <= 2 ^ size_t_bits) by (apply Z.pow_le_mono_r; lia).
  rewrite Hr, Z.land_ones by lia. rewrite Z.mod_small by lia.
  unfold to_int32. rewrite Z.mod_small by lia.
  destruct (Z.geb_spec (8 * ((cpusetsize + 7) / 8)) (2 ^ 31)); [lia|reflexivity].
Qed.

Lemma land_not7 (x : Z) : Z.land x (Z.lnot 7) = 8 * (x / 8).
Proof.
  change 7 with (Z.ones 3) at 1. rewrite <- Z.ldiff_land, Z.ldiff_ones_r by lia.
  rewrite Z.shiftl_mul_pow2, Z.shiftr_div_pow2 by lia. change (2 ^ 3) with 8. lia.
Qed.

Lemma sched_getaffinity_bytes_wrap (size_t_bits cpusetsize : Z) :
  3 <= size_t_bits -> 2 ^ size_t_bits - 7 <= cpusetsize < 2 ^ size_t_bits ->
  to_int32 (Z.land (Z.land (cpusetsize + 7) (Z.lnot 7)) (Z.ones size_t_bits)) = 0.
Proof.
  intros Hb Hc.
  set (K := 2 ^ (size_t_bits - 3)).
  assert (HK : 2 ^ size_t_bits = 8 * K).
  { unfold K. replace size_t_bits with (3 + (size_t_bits - 3)) at 1 by lia.
    rewrite Z.pow_add_r by lia. reflexivity. }
  assert (HKpos : 0 < K) by (unfold K; apply Z.pow_pos_nonneg; lia).
  assert (Hdiv : (cpusetsize + 7) / 8 = K).
  { replace (cpusetsize + 7) with (K * 8 + (cpusetsize + 7 - 8 * K)) by lia.
    rewrite Z.div_add_l by lia. rewrite (Z.div_small (cpusetsize + 7 - 8 * K)) by lia. lia. }
  rewrite land_not7, Hdiv, Z.land_ones, <- HK, Z.mod_same by lia.
  reflexivity.
Qed.

Lemma sys_sched_getaffinity_pid0 (mm_check_write_mask : Z -> bool) (size_t_bits uintptr_size : Z)
  (cpusetsize : Z) (mask : Z -> Z) (bytes : Z) :
  to_int32 (Z.land (Z.land (cpusetsize + 7) (Z.lnot 7)) (Z.ones size_t_bits)) = bytes ->
  sys_sched_getaffinity mm_check_write_mask size_t_bits uintptr_size 0 cpusetsize mask =
  if mm_check_write_mask bytes
  then (uintptr_size,
        fun i => if i =? 0 then 1 else if (0 <=? i) && (i <? bytes) then 0 else mask i)
  else (- EFAULT, mask).
Proof.
  intros H. unfold sys_sched_getaffinity. cbn [Z.eqb negb]. rewrite H.
  destruct (mm_check_write_mask bytes); reflexivity.
Qed.

(** [sched_getaffinity(0, cpusetsize, mask)] for a [cpusetsize] that fits an
    [int] once rounded: the region checked and cleared is [cpusetsize]
    rounded up to a multiple of 8 bytes. If the check fails the call returns
    [-EFAULT] and writes nothing; otherwise it returns [sizeof(uintptr_t)],
    whatever [cpusetsize] is, byte 0 holds 1 -- written even when
    [cpusetsize] is 0 and no byte was checked -- the other bytes of the
    region hold 0, and the memory outside is untouched. *)
Theorem sys_sched_getaffinity_result (mm_check_write_mask : Z -> bool)
  (size_t_bits uintptr_size cpusetsize : Z) (mask mask' : Z -> Z) (r : Z) :
  0 <= cpusetsize <= 2 ^ 31 - 8 -> 32 <= size_t_bits ->
  sys_sched_getaffinity mm_check_write_mask size_t_bits uintptr_size 0 cpusetsize mask
  = (r, mask') ->
  (mm_check_write_mask (8 * ((cpusetsize + 7) / 8)) = false /\ r = - EFAULT /\ mask' = mask)
  \/
  (mm_check_write_mask (8 * ((cpusetsize + 7) / 8)) = true /\ r = uintptr_size /\
   mask' 0 = 1 /\
   (forall i, 1 <= i < 8 * ((cpusetsize + 7) / 8) -> mask' i = 0) /\
   (forall i, i <> 0 -> i < 0 \/ 8 * ((cpusetsize + 7) / 8) <= i -> mask' i = mask i)).
Proof.
  intros Hc Hb H.
  rewrite (sys_sched_getaffinity_pid0 _ _ _ _ _ _ (sched_getaffinity_bytes _ _ Hc Hb)) in H.
  set (b := 8 * ((cpusetsize + 7) / 8)) in *. clearbody b.
  destruct (mm_check_write_mask b) eqn:Em.
  - injection H as <- <-. right. split; [reflexivity|]. split; [reflexivity|].
    split; [reflexivity|]. split.
    + intros i Hi. destruct (Z.eqb_spec i 0); [lia|].
      destruct (Z.leb_spec 0 i); [|lia]. destruct (Z.ltb_spec i b); [reflexivity|lia].
    + intros i Hi0 Hi. destruct (Z.eqb_spec i 0); [contradiction|].
      destruct (Z.leb_spec 0 i); destruct (Z.ltb_spec i b);
        cbn [andb]; try reflexivity; lia.
  - injection H as <- <-. left. auto.
Qed.

Lemma sys_sched_getaffinity_result_witness :
  exists r mask',
    (0 <= 3 <= 2 ^ 31 - 8) /\ 32 <= 64 /\
    sys_sched_getaffinity (fun _ => true) 64 8 0 3 (fun _ => 7) = (r, mask') /\
    ((true = false /\ r = - EFAULT /\ mask' = (fun _ => 7))
     \/
     (true = true /\ r = 8 /\ mask' 0 = 1 /\
      (forall i, 1 <= i < 8 * ((3 + 7) / 8) -> mask' i = 0) /\
      (forall i, i <> 0 -> i < 0 \/ 8 * ((3 + 7) / 8) <= i -> mask' i = 7))).
Proof.
  destruct (sys_sched_getaffinity (fun _ => true) 64 8 0 3 (fun _ => 7)) as [r mask'] eqn:E.
  assert (H1 : 0 <= 3 <= 2 ^ 31 - 8) by lia.
  assert (H2 : 32 <= 64) by lia.
  exists r, mask'. split; [exact H1|]. split; [exact H2|]. split; [reflexivity|].
  exact (sys_sched_getaffinity_result (fun _ => true) 64 8 3 (fun _ => 7) mask' r H1 H2 E).
Defined.

(** When [cpusetsize + 7] overflows [size_t] (a [cpusetsize] within 7 of the
    largest [size_t]), [sched_getaffinity(0, ...)] checks and clears no byte
    at all, yet writes 1 to byte 0 and reports success with
    [sizeof(uintptr_t)] if a zero-length write is allowed. *)
Theorem sys_sched_getaffinity_size_wraps (mm_check_write_mask : Z -> bool)
  (size_t_bits uintptr_size cpusetsize : Z) (mask mask' : Z -> Z) (r : Z) :
  3 <= size_t_bits -> 2 ^ size_t_bits - 7 <= cpusetsize < 2 ^ size_t_bits ->
  mm_check_write_mask 0 = true ->
  sys_sched_getaffinity mm_check_write_mask size_t_bits uintptr_size 0 cpusetsize mask
  = (r, mask') ->
  r = uintptr_size /\ forall i, mask' i = if i =? 0 then 1 else mask i.
Proof.
  intros Hb Hc Hm H.
  rewrite (sys_sched_getaffinity_pid0 _ _ _ _ _ _ (sched_getaffinity_bytes_wrap _ _ Hb Hc)),
    Hm in H.
  injection H as <- <-. split; [reflexivity|].
  intros i. destruct (i =? 0); [reflexivity|].
  destruct (Z.leb_spec 0 i); destruct (Z.ltb_spec i 0); cbn [andb]; try reflexivity; lia.
Qed.

Lemma sys_sched_getaffinity_size_wraps_witness :
  exists r mask',
    3 <= 64 /\ 2 ^ 64 - 7 <= 2 ^ 64 - 1 < 2 ^ 64 /\ (fun _ : Z => true) 0 = true /\
    sys_sched_getaffinity (fun _ => true) 64 8 0 (2 ^ 64 - 1) (fun _ => 7) = (r, mask') /\
    r = 8 /\ forall i, mask' i = if i =? 0 then 1 else 7.
Proof.
  destruct (sys_sched_getaffinity (fun _ => true) 64 8 0 (2 ^ 64 - 1) (fun _ => 7))
    as [r mask'] eqn:E.
  assert (H1 : 3 <= 64) by lia.
  assert (H2 : 2 ^ 64 - 7 <= 2 ^ 64 - 1 < 2 ^ 64) by lia.
  assert (H3 : (fun _ : Z => true) 0 = true) by reflexivity.
  exists r, mask'. split; [exact H1|]. split; [exact H2|]. split; [exact H3|].
  split; [reflexivity|].
  exact (sys_sched_getaffinity_size_wraps (fun _ => true) 64 8 (2 ^ 64 - 1) (fun _ => 7)
           mask' r H1 H2 H3 E).
Defined.

(** ** oldolduname *)

Lemma strncpy_length (src : string) (n : nat) : List.length (strncpy src n) = n.
Proof.
  revert src; induction n as [|n IH]; intros src; [reflexivity|].
  destruct src as [|ch rest]; cbn [strncpy];
    [|destruct (Ascii.eqb ch Ascii.zero)]; cbn [List.length]; rewrite IH; reflexivity.
Qed.

(** [sys_oldolduname] on a writable buffer returns 0 and copies
    [__OLD_UTS_LEN + 1] = 9 bytes of each field of [newbuf] with
    [strncpy]. When [sys_uname(&newbuf)] succeeds, the 12-byte nodename
    "ForeignLinux" is cut to "ForeignLi" with no terminating NUL, while
    every other field, of 9 bytes, is NUL-terminated. When it fails, the call
    still returns 0, and what it copies is the uninitialised [newbuf]. On a
    buffer that is not writable nothing is written and the result is
    [-EFAULT]. *)
Theorem sys_oldolduname_nodename_unterminated (win64 newbuf_writable : bool)
  (newbuf : utsname) :
  sys_oldolduname win64 false newbuf_writable newbuf = (- EFAULT, None) /\
  (exists u,
     sys_oldolduname win64 true true newbuf = (0, Some u) /\
     old_nodename u = list_ascii_of_string "ForeignLi" /\
     ~ In Ascii.zero (old_nodename u) /\
     (forall f, In f [old_sysname u; old_release u; old_version u; old_machine u] ->
                List.length f = 9%nat /\ In Ascii.zero f)) /\
  sys_oldolduname win64 true false newbuf =
  (0, Some (mkOldold (strncpy (sysname newbuf) 9) (strncpy (nodename newbuf) 9)
              (strncpy (release newbuf) 9) (strncpy (version newbuf) 9)
              (strncpy (machine newbuf) 9))).
Proof.
  split; [reflexivity|]. split; [|reflexivity].
  eexists. split; [reflexivity|]. cbn [old_nodename old_sysname old_release old_version
                                        old_machine].
  split; [reflexivity|]. split; [cbn; intuition discriminate|].
  intros f Hf. split.
  - repeat (destruct Hf as [<-|Hf]; [apply strncpy_length|]). destruct Hf.
  - repeat (destruct Hf as [<-|Hf];
            [destruct win64; cbn; repeat (first [left; reflexivity|right])|]).
    destruct Hf.
Qed.
